(** * pdfextractor: the page pipeline of the PDF extractor, embedded in Rocq

    The development follows the TypeScript sources:
    - [types.ts]                  the records [PDFPagePreview], [PDFData], [AppStatus];
    - [services/pdfService.ts]    [parsePDF] and [extractPages];
    - [services/geminiService.ts] [suggestPagesByQuery];
    - [App.tsx]                   the component state and its handlers.

    What the sources delegate to the JavaScript runtime and to the three
    libraries they import (pdf.js, pdf-lib, the text-generation client) is
    modelled in the modules [Js], [JSON], [PdfLib] and in the records
    [PdfCodec], [PdfJs] and [GenAI].

    Conventions of the embedding:
    - an [await] on a promise is a bind in the exception monad [result]:
      a rejected promise, like a [throw], is an [inl];
    - a [number] is an exact rational, a string a sequence of characters
      that stand for code units, a [Uint8Array] a list of bytes, an array
      a list, a [Set<number>] the list of its members in insertion order;
    - a handler of the component is a function on the state of the hooks,
      taken from the state it starts in to the state it leaves when it
      has run to its end; what another handler does to the state while
      an asynchronous one awaits is not part of the model. *)

From Stdlib Require Import List ZArith QArith Qcanon String Ascii Bool Lia.
From Stdlib Require Import Strings.Byte.
From Stdlib Require Import Permutation Sorted.
Import ListNotations.

Set Implicit Arguments.

(* ================================================================== *)
(** ** The JavaScript runtime *)
(* ================================================================== *)

Module Js.

(** Values thrown by the code or by what it calls. *)
Inductive exn : Type :=
| TypeError (msg : string)
| SyntaxError (msg : string)
| LibraryError (msg : string).

(** The outcome of a call (of an awaited promise): [inl] is a throw
    (a rejection), [inr] a normal return. *)
Definition result (A : Type) : Type := (exn + A)%type.

Definition ret {A} (a : A) : result A := inr a.
Definition throw {A} (e : exn) : result A := inl e.

Definition bind {A B} (m : result A) (k : A -> result B) : result B :=
  match m with
  | inl e => inl e
  | inr a => k a
  end.

(** [try { body } catch (e) { handler }] *)
Definition try_catch {A} (body : result A) (handler : exn -> A) : A :=
  match body with
  | inl e => handler e
  | inr a => a
  end.

(** A [number].  The finite values are modelled exactly, as canonical
    rationals; rounding to binary64, NaN, the infinities and the sign of
    zero are not modelled. *)
Definition number : Set := Qc.

Definition num_of_Z (z : Z) : number := Q2Qc (inject_Z z).
Definition num_of_nat (n : nat) : number := num_of_Z (Z.of_nat n).

(** [a === b] on numbers. *)
Definition num_eqb (a b : number) : bool := Qeq_bool a b.

(** [a - b] *)
Definition num_sub (a b : number) : number := (a - b)%Qc.

(** [x > 0] *)
Definition num_pos (x : number) : bool :=
  match Qccompare x (num_of_Z 0) with
  | Gt => true
  | _ => false
  end.

(** [Number.isInteger(x)] *)
Definition isInteger (x : number) : bool := Pos.eqb (Qden x) 1.

(** [arr[k]] for a number [k]: the element at position [k] when [k] is
    an integer with [0 <= k < arr.length], [undefined] otherwise. *)
Definition array_get {A} (arr : list A) (k : number) : option A :=
  if isInteger k && (0 <=? Qnum k)%Z
  then nth_error arr (Z.to_nat (Qnum k))
  else None.

(** [arr.sort(compareFn)]: the elements rearranged so that no element
    is placed after one that [compareFn] ranks above it; elements that
    compare equal keep their order.  The rearrangement is computed by
    insertion, the engine's algorithm being its own business. *)
Fixpoint sort_insert {A} (compareFn : A -> A -> number) (x : A) (l : list A) : list A :=
  match l with
  | [] => [x]
  | y :: l' =>
      if num_pos (compareFn x y) then y :: sort_insert compareFn x l'
      else x :: l
  end.

Definition array_sort {A} (compareFn : A -> A -> number) (arr : list A) : list A :=
  fold_right (sort_insert compareFn) [] arr.

(** [s.substring(a, b)] for non-negative integers [a] and [b]: both
    are clamped to the length and swapped when [a > b]. *)
Definition substring (a b : nat) (s : string) : string :=
  let len := String.length s in
  let a' := Nat.min a len in
  let b' := Nat.min b len in
  String.substring (Nat.min a' b') (Nat.max a' b' - Nat.min a' b') s.

(** White space as [trim] sees it, among the code units a character
    of the model can hold: TAB, LF, VT, FF, CR, SP and NBSP. *)
Definition is_white_space (c : ascii) : bool :=
  let n := N_of_ascii c in
  ((9 <=? n) && (n <=? 13) || (n =? 32) || (n =? 160))%N.

Fixpoint trimStart (s : string) : string :=
  match s with
  | EmptyString => EmptyString
  | String c s' => if is_white_space c then trimStart s' else s
  end.

(** [trimEnd]: the characters are kept up to the last one that is not
    white space. *)
Fixpoint trimEnd (s : string) : string :=
  match s with
  | EmptyString => EmptyString
  | String c s' =>
      match trimEnd s' with
      | EmptyString => if is_white_space c then EmptyString else String c EmptyString
      | t => String c t
      end
  end.

Definition trim (s : string) : string := trimEnd (trimStart s).

(** [!s] for a string: true exactly for the empty string. *)
Definition str_falsy (s : string) : bool :=
  match s with
  | EmptyString => true
  | _ => false
  end.

(** [arr.join(sep)] on an array of strings. *)
Definition join (sep : string) (arr : list string) : string := String.concat sep arr.

(** [Set<number>]: the members in insertion order, each once. *)
Module NumSet.

Definition t : Set := list number.

(** [new Set()] *)
Definition empty : t := [].

(** [s.has(x)] *)
Definition has (s : t) (x : number) : bool := existsb (num_eqb x) s.

(** [s.add(x)]: a new member goes last, a present one stays where it is. *)
Definition add (s : t) (x : number) : t := if has s x then s else s ++ [x].

(** [s.delete(x)] *)
Definition delete (s : t) (x : number) : t := filter (fun y => negb (num_eqb x y)) s.

(** [new Set(iterable)]: the values are added one by one. *)
Definition of_iterable (l : list number) : t := fold_left add l empty.

(** [s.size] *)
Definition size (s : t) : nat := List.length s.

(** [Array.from(s)] *)
Definition to_array (s : t) : list number := s.

End NumSet.

End Js.

Import Js.

Declare Scope js_scope.
Delimit Scope js_scope with js.
Notation "x <- m ;; k" := (bind m (fun x => k))
  (at level 61, m at next level, right associativity) : js_scope.
Local Open Scope js_scope.
Local Open Scope string_scope.
Local Open Scope list_scope.


(* ================================================================== *)
(** ** [JSON.parse] *)
(* ================================================================== *)

(** The values [JSON.parse] builds and the grammar of ECMA-404 it
    accepts.  A character of the input stands for one UTF-16 code unit;
    the code units of a parsed string are kept as numbers, since a
    [\u] escape can denote any of them. *)
Module JSON.

#[local] Set Warnings "-register-all".

Inductive value : Type :=
| JNull
| JBool (b : bool)
| JNumber (n : number)
| JString (units : list N)
| JArray (items : list value)
| JObject (members : list (list N * value)).

(** [typeof v] *)
Definition typeof (v : value) : string :=
  match v with
  | JNull | JArray _ | JObject _ => "object"
  | JBool _ => "boolean"
  | JNumber _ => "number"
  | JString _ => "string"
  end.

(** [Array.isArray(v)] *)
Definition isArray (v : value) : bool :=
  match v with
  | JArray _ => true
  | _ => false
  end.

Definition code (c : ascii) : N := N_of_ascii c.

(** Insignificant white space: TAB, LF, CR, SP. *)
Definition is_ws (c : ascii) : bool :=
  let n := code c in ((n =? 9) || (n =? 10) || (n =? 13) || (n =? 32))%N.

Fixpoint skip_ws (s : list ascii) : list ascii :=
  match s with
  | c :: s' => if is_ws c then skip_ws s' else s
  | [] => []
  end.

Definition is_digit (c : ascii) : bool :=
  let n := code c in ((48 <=? n) && (n <=? 57))%N.

Definition digit_val (c : ascii) : Z := Z.of_N (code c) - 48.

(** The longest run of digits at the head of [s]: its value on top of
    [v], the number of digits read on top of [k], and what follows. *)
Fixpoint read_digits (s : list ascii) (v : Z) (k : nat) : Z * nat * list ascii :=
  match s with
  | c :: s' => if is_digit c then read_digits s' (10 * v + digit_val c)%Z (S k) else (v, k, s)
  | [] => (v, k, s)
  end.

(** [. digits], optional: the mantissa and the number of decimals. *)
Definition read_fraction (int : Z) (s : list ascii) : option (Z * nat * list ascii) :=
  match s with
  | c :: s' =>
      if (code c =? 46)%N then
        match read_digits s' int 0 with
        | (_, O, _) => None
        | r => Some r
        end
      else Some (int, O, s)
  | [] => Some (int, O, s)
  end.

(** [e] or [E], a sign, digits; optional. *)
Definition read_exponent (s : list ascii) : option (Z * list ascii) :=
  match s with
  | c :: s' =>
      if ((code c =? 101) || (code c =? 69))%N then
        let '(neg, s'') :=
          match s' with
          | d :: t => if (code d =? 45)%N then (true, t)
                      else if (code d =? 43)%N then (false, t)
                      else (false, s')
          | [] => (false, s')
          end in
        match read_digits s'' 0 0 with
        | (_, O, _) => None
        | (e, _, rest) => Some (if neg then (- e)%Z else e, rest)
        end
      else Some (0%Z, s)
  | [] => Some (0%Z, s)
  end.

(** A number: an optional minus sign, an integer part (a lone zero, or
    digits that do not start with zero), an optional fraction and an
    optional exponent.  Its value is mantissa * 10^(exponent - decimals). *)
Definition parse_number (s : list ascii) : option (number * list ascii) :=
  let '(neg, s1) :=
    match s with
    | c :: t => if (code c =? 45)%N then (true, t) else (false, s)
    | [] => (false, s)
    end in
  let int_part :=
    match s1 with
    | c :: t =>
        if (code c =? 48)%N then Some (0%Z, t)
        else if is_digit c then
          let '(v, _, rest) := read_digits s1 0 0 in Some (v, rest)
        else None
    | [] => None
    end in
  match int_part with
  | None => None
  | Some (int, s2) =>
      match read_fraction int s2 with
      | None => None
      | Some (mant, decimals, s3) =>
          match read_exponent s3 with
          | None => None
          | Some (e, s4) =>
              let m := if neg then (- mant)%Z else mant in
              Some (Q2Qc (inject_Z m * Qpower (inject_Z 10) (e - Z.of_nat decimals)), s4)
          end
      end
  end.

Definition hex_val (c : ascii) : option N :=
  let n := code c in
  if ((48 <=? n) && (n <=? 57))%N then Some (n - 48)%N
  else if ((65 <=? n) && (n <=? 70))%N then Some (n - 55)%N
  else if ((97 <=? n) && (n <=? 102))%N then Some (n - 87)%N
  else None.

(** The code unit a one-letter escape stands for. *)
Definition escape_val (c : ascii) : option N :=
  let n := code c in
  if ((n =? 34) || (n =? 92) || (n =? 47))%N then Some n
  else if (n =? 98)%N then Some 8%N
  else if (n =? 102)%N then Some 12%N
  else if (n =? 110)%N then Some 10%N
  else if (n =? 114)%N then Some 13%N
  else if (n =? 116)%N then Some 9%N
  else None.

(** The characters of a string after its opening quote, up to the
    closing one: no control character, escapes decoded. *)
Fixpoint parse_string_body (s : list ascii) (acc : list N) : option (list N * list ascii) :=
  match s with
  | [] => None
  | c :: rest =>
      if (code c =? 34)%N then Some (rev acc, rest)
      else if (code c <? 32)%N then None
      else if (code c =? 92)%N then
        match rest with
        | [] => None
        | e :: rest1 =>
            if (code e =? 117)%N then
              match rest1 with
              | h1 :: h2 :: h3 :: h4 :: rest2 =>
                  match hex_val h1, hex_val h2, hex_val h3, hex_val h4 with
                  | Some a, Some b, Some c', Some d =>
                      parse_string_body rest2 ((((a * 16 + b) * 16 + c') * 16 + d)%N :: acc)
                  | _, _, _, _ => None
                  end
              | _ => None
              end
            else
              match escape_val e with
              | Some u => parse_string_body rest1 (u :: acc)
              | None => None
              end
        end
      else parse_string_body rest (code c :: acc)
  end.

(** [expect w s]: [s] without the prefix [w], when it has it. *)
Fixpoint expect (w : list ascii) (s : list ascii) : option (list ascii) :=
  match w, s with
  | [], _ => Some s
  | a :: w', b :: s' => if Ascii.eqb a b then expect w' s' else None
  | _ :: _, [] => None
  end.

Definition literal (w : string) (v : value) (s : list ascii) : option (value * list ascii) :=
  match expect (list_ascii_of_string w) s with
  | Some rest => Some (v, rest)
  | None => None
  end.

(** What the parser is reading: a value, the rest of an array after
    [[] or a comma, the rest of an object after [{] or a comma. *)
Inductive task : Type :=
| TValue
| TElements (acc : list value)
| TMembers (acc : list (list N * value)).

Fixpoint parse_at (fuel : nat) (t : task) (s : list ascii) : option (value * list ascii) :=
  match fuel with
  | O => None
  | S fuel' =>
      match t with
      | TValue =>
          match skip_ws s with
          | [] => None
          | c :: rest =>
              let n := code c in
              if (n =? 91)%N then
                match skip_ws rest with
                | c' :: rest' =>
                    if (code c' =? 93)%N then Some (JArray [], rest')
                    else parse_at fuel' (TElements []) rest
                | [] => None
                end
              else if (n =? 123)%N then
                match skip_ws rest with
                | c' :: rest' =>
                    if (code c' =? 125)%N then Some (JObject [], rest')
                    else parse_at fuel' (TMembers []) rest
                | [] => None
                end
              else if (n =? 34)%N then
                match parse_string_body rest [] with
                | Some (u, rest') => Some (JString u, rest')
                | None => None
                end
              else if (n =? 116)%N then literal "rue" (JBool true) rest
              else if (n =? 102)%N then literal "alse" (JBool false) rest
              else if (n =? 110)%N then literal "ull" JNull rest
              else
                match parse_number (c :: rest) with
                | Some (x, rest') => Some (JNumber x, rest')
                | None => None
                end
          end
      | TElements acc =>
          match parse_at fuel' TValue s with
          | None => None
          | Some (v, rest) =>
              match skip_ws rest with
              | c :: rest' =>
                  if (code c =? 44)%N then parse_at fuel' (TElements (v :: acc)) rest'
                  else if (code c =? 93)%N then Some (JArray (rev (v :: acc)), rest')
                  else None
              | [] => None
              end
          end
      | TMembers acc =>
          match skip_ws s with
          | q :: s1 =>
              if (code q =? 34)%N then
                match parse_string_body s1 [] with
                | None => None
                | Some (key, s2) =>
                    match skip_ws s2 with
                    | colon :: s3 =>
                        if (code colon =? 58)%N then
                          match parse_at fuel' TValue s3 with
                          | None => None
                          | Some (v, rest) =>
                              match skip_ws rest with
                              | c :: rest' =>
                                  if (code c =? 44)%N
                                  then parse_at fuel' (TMembers ((key, v) :: acc)) rest'
                                  else if (code c =? 125)%N
                                  then Some (JObject (rev ((key, v) :: acc)), rest')
                                  else None
                              | [] => None
                              end
                          end
                        else None
                    | [] => None
                    end
                end
              else None
          | [] => None
          end
      end
  end.

(** [JSON.parse(text)]: one value between white space, or a
    [SyntaxError].  Two units of fuel per character are enough, since
    every value read consumes a character and so does every element or
    member after the first: [JSONFacts.parse_returns] below shows that
    no more fuel would read more. *)
Definition parse (text : string) : result value :=
  let s := list_ascii_of_string text in
  match parse_at (2 * List.length s + 2) TValue s with
  | Some (v, rest) =>
      match skip_ws rest with
      | [] => ret v
      | _ :: _ => throw (SyntaxError "Unexpected non-whitespace character after JSON")
      end
  | None => throw (SyntaxError "Unexpected token or end of JSON input")
  end.

End JSON.

(** The double quote, as a string. *)
Definition dquote : string := String (ascii_of_nat 34) EmptyString.

(** The line feed, as a string. *)
Definition newline : string := String (ascii_of_nat 10) EmptyString.


(* ================================================================== *)
(** ** [types.ts] *)
(* ================================================================== *)

(** [Uint8Array] *)
Definition Uint8Array : Set := list byte.

Record PDFPagePreview : Set := {
  index : number;
  thumbnail : string;
  textContent : string
}.

Record PDFData : Set := {
  name : string;
  size : number;
  pages : list PDFPagePreview;
  rawBytes : Uint8Array
}.

Inductive AppStatus : Set := IDLE | LOADING | READY | PROCESSING.


(* ================================================================== *)
(** ** pdf-lib 1.17.1, as far as [extractPages] uses it *)
(* ================================================================== *)

(** The document-assembly library.  Reading and writing the binary
    format, copying one page object and the blank page are the
    library's own; the methods of [PDFDocument] that [extractPages]
    calls are written out over them in [PdfLib] below. *)
Record PdfCodec : Type := {
  (** a page of a document, with all it refers to *)
  PageNode : Type;
  (** the parser behind [PDFDocument.load] *)
  pdf_parse : Uint8Array -> result (list PageNode);
  (** [PDFObjectCopier.copy] on a page *)
  pdf_copy : PageNode -> PageNode;
  (** the page that [addPage()] makes when it is given none *)
  pdf_blank : PageNode;
  (** the writer behind [save] *)
  pdf_serialize : list PageNode -> Uint8Array
}.

Module PdfLib.

Section Methods.

Variable C : PdfCodec.

(** A [PDFDocument], by its page tree in order ([getPages()]). *)
Record PDFDocument : Type := { getPages : list (PageNode C) }.

Definition getPageCount (doc : PDFDocument) : nat := List.length (getPages doc).

(** [PDFDocument.load(bytes)] *)
Definition load (bytes : Uint8Array) : result PDFDocument :=
  ps <- pdf_parse C bytes ;; ret {| getPages := ps |}.

(** [PDFDocument.create()]: a document without pages. *)
Definition create : PDFDocument := {| getPages := [] |}.

(** The loop of [copyPages]:
    [srcPage = srcPages[indices[idx]]; copiedPages[idx] = copy(srcPage.node)];
    reading [.node] of [undefined] is a [TypeError]. *)
Fixpoint copyPages_loop (srcPages : list (PageNode C)) (indices : list number)
  : result (list (PageNode C)) :=
  match indices with
  | [] => ret []
  | k :: indices' =>
      match array_get srcPages k with
      | None => throw (TypeError "Cannot read properties of undefined (reading 'node')")
      | Some srcPage =>
          copied <- copyPages_loop srcPages indices' ;;
          ret (pdf_copy C srcPage :: copied)
      end
  end.

(** [dst.copyPages(srcDoc, indices)]: the copies are registered in [dst]
    but not yet in its page tree. *)
Definition copyPages (dst srcDoc : PDFDocument) (indices : list number)
  : result (list (PageNode C)) :=
  copyPages_loop (getPages srcDoc) indices.

(** [doc.addPage(page)]: [insertPage(getPageCount(), page)]. *)
Definition addPage (doc : PDFDocument) (page : PageNode C) : PDFDocument :=
  {| getPages := getPages doc ++ [page] |}.

(** [doc.save()] with the default options, of which [addDefaultPage] is
    [true]: [if (addDefaultPage && this.getPageCount() === 0) this.addPage();]
    comes before the document is written. *)
Definition save (doc : PDFDocument) : Uint8Array :=
  let doc' :=
    if Nat.eqb (getPageCount doc) 0 then addPage doc (pdf_blank C) else doc in
  pdf_serialize C (getPages doc').

End Methods.

End PdfLib.


(* ================================================================== *)
(** ** pdf.js 4.0.379 and the canvas, as far as [parsePDF] uses them *)
(* ================================================================== *)

Record TextItem : Set := { str : string }.

Record PageViewport : Set := { height : number; width : number }.

(** The page-rendering library and the browser's canvas. *)
Record PdfJs : Type := {
  PDFDocumentProxy : Type;
  PDFPageProxy : Type;
  (** [CanvasRenderingContext2D] *)
  CanvasContext : Type;
  (** [getDocument({ data }).promise] *)
  getDocument : Uint8Array -> result PDFDocumentProxy;
  (** [pdf.numPages] *)
  numPages : PDFDocumentProxy -> nat;
  (** [pdf.getPage(i)] for the physical page number [i], from 1 *)
  getPage : PDFDocumentProxy -> nat -> result PDFPageProxy;
  (** [page.getViewport({ scale })] *)
  getViewport : PDFPageProxy -> number -> PageViewport;
  (** [canvas.getContext('2d')] on the canvas made for page number [i];
      [None] is [null] *)
  getContext : nat -> option CanvasContext;
  (** [page.render({ canvasContext, viewport }).promise] *)
  render : PDFPageProxy -> CanvasContext -> PageViewport -> result unit;
  (** [canvas.toDataURL('image/webp', 0.8)] on the canvas once [page]
      is painted on it *)
  toDataURL : PDFPageProxy -> PageViewport -> string;
  (** [page.getTextContent()], its [items] *)
  getTextContent : PDFPageProxy -> result (list TextItem)
}.

(** What a [Uint8Array] is once it has been passed as [data] to
    [getDocument]: pdf.js 4.0.379 transfers the buffer of the array to
    its worker, which leaves the array detached, of length 0. *)
Definition transferred (data : Uint8Array) : Uint8Array := [].

(** [File] *)
Record File : Set := {
  file_name : string;
  file_size : number;
  arrayBuffer : Uint8Array
}.


(* ================================================================== *)
(** ** [services/pdfService.ts] *)
(* ================================================================== *)

Module PdfService.

Section ParsePDF.

Variable P : PdfJs.

(** The body of the loop of [parsePDF] for the page number [i]: the
    record is pushed only under [if (context)]. *)
Definition parsePDF_body (pdf : PDFDocumentProxy P) (i : nat) (pages : list PDFPagePreview)
  : result (list PDFPagePreview) :=
  page <- getPage P pdf i ;;
  let viewport := getViewport P page (Q2Qc 0.5) in
  let context := getContext P i in
  match context with
  | Some ctx =>
      _ <- render P page ctx viewport ;;
      let thumbnail := toDataURL P page viewport in
      textContent <- getTextContent P page ;;
      let text := join " " (map str textContent) in
      ret (pages ++ [ {| index := num_of_Z (Z.of_nat i - 1);
                         thumbnail := thumbnail;
                         textContent := text |} ])
  | None => ret pages
  end.

(** [for (let i = 1; i <= pdf.numPages; i++)], entered at [i] with
    [remaining = pdf.numPages + 1 - i] iterations to go. *)
Fixpoint parsePDF_loop (pdf : PDFDocumentProxy P) (remaining i : nat)
  (pages : list PDFPagePreview) : result (list PDFPagePreview) :=
  match remaining with
  | O => ret pages
  | S remaining' =>
      pages' <- parsePDF_body pdf i pages ;;
      parsePDF_loop pdf remaining' (S i) pages'
  end.

Definition parsePDF (file : File) : result PDFData :=
  let bytes := arrayBuffer file in
  pdf <- getDocument P bytes ;;
  (* [bytes] still names the array that [getDocument] was given *)
  let bytes := transferred bytes in
  pages <- parsePDF_loop pdf (numPages P pdf) 1 [] ;;
  ret {| name := file_name file;
         size := file_size file;
         pages := pages;
         rawBytes := bytes |}.

End ParsePDF.

Section ExtractPages.

Variable C : PdfCodec.

Definition extractPages (originalBytes : Uint8Array) (pageIndices : list number)
  : result Uint8Array :=
  pdfDoc <- PdfLib.load C originalBytes ;;
  let newPdfDoc := PdfLib.create C in
  copiedPages <- PdfLib.copyPages newPdfDoc pdfDoc pageIndices ;;
  (* copiedPages.forEach((page) => newPdfDoc.addPage(page)) *)
  let newPdfDoc := fold_left (@PdfLib.addPage C) copiedPages newPdfDoc in
  ret (PdfLib.save newPdfDoc).

End ExtractPages.

End PdfService.


(* ================================================================== *)
(** ** [services/geminiService.ts] *)
(* ================================================================== *)

(** An element of [pageData]. *)
Record PageDatum : Set := {
  pd_index : number;
  content : string
}.

(** [responseSchema] *)
Inductive Schema : Set :=
| ARRAY (items : Schema)
| INTEGER.

Record GenerateContentParameters : Set := {
  model : string;
  contents : string;
  responseMimeType : string;
  responseSchema : Schema
}.

(** A response, by its [text] accessor; [None] is [undefined]. *)
Record GenerateContentResponse : Set := { text : option string }.

(** The text-generation client, and [JSON.stringify] on [pageData]. *)
Record GenAI : Type := {
  generateContent : GenerateContentParameters -> result GenerateContentResponse;
  JSON_stringify : list PageDatum -> string
}.

Module GeminiService.

Definition pageData (pages : list PDFPagePreview) : list PageDatum :=
  map (fun p => {| pd_index := index p;
                   content := Js.substring 0 500 (textContent p) |}) pages.

(** The template literal of [contents]. *)
Definition prompt (stringify : list PageDatum -> string) (query : string)
  (data : list PageDatum) : string :=
  ("Analyze the following PDF page contents and identify the page indices (0-based) that best match the user's search query: "
   ++ dquote ++ query ++ dquote ++ ". " ++ newline
   ++ "    Return only a JSON array of indices." ++ newline
   ++ "    " ++ newline
   ++ "    Data: " ++ stringify data)%string.

Definition request (G : GenAI) (query : string) (pages : list PDFPagePreview)
  : GenerateContentParameters :=
  {| model := "gemini-3-flash-preview";
     contents := prompt (JSON_stringify G) query (pageData pages);
     responseMimeType := "application/json";
     responseSchema := ARRAY INTEGER |}.

(** [parsed.filter((item): item is number => typeof item === 'number')]:
    the items that pass the test, which the type guard then reads as
    numbers. *)
Definition is_number (item : JSON.value) : bool :=
  String.eqb (JSON.typeof item) "number".

Definition as_numbers (items : list JSON.value) : list number :=
  flat_map (fun item => match item with JSON.JNumber n => [n] | _ => [] end) items.

Definition filter_numbers (parsed : list JSON.value) : list number :=
  as_numbers (filter is_number parsed).

Definition suggestPagesByQuery (G : GenAI) (query : string) (pages : list PDFPagePreview)
  : result (list number) :=
  response <- generateContent G (request G query pages) ;;
  match text response with
  | None => ret []
  | Some text =>
      if str_falsy text then ret []
      else
        ret (try_catch
               (parsed <- JSON.parse text ;;
                match parsed with
                | JSON.JArray items => ret (filter_numbers items)
                | _ => ret []
                end)
               (fun e => (* console.error *) []))
  end.

End GeminiService.


(* ================================================================== *)
(** ** [App.tsx] *)
(* ================================================================== *)

(** What the component runs on. *)
Record Env : Type := {
  pdfjs : PdfJs;
  codec : PdfCodec;
  genai : GenAI
}.

Module App.

Import NumSet.

(** The state hooks of the component. *)
Record State : Set := {
  status : AppStatus;
  pdfData : option PDFData;
  selectedIndices : NumSet.t;
  aiQuery : string;
  isAiLoading : bool;
  error : option string
}.

Definition initial : State :=
  {| status := IDLE; pdfData := None; selectedIndices := empty;
     aiQuery := ""; isAiLoading := false; error := None |}.

Definition setStatus (v : AppStatus) (st : State) : State :=
  {| status := v; pdfData := pdfData st; selectedIndices := selectedIndices st;
     aiQuery := aiQuery st; isAiLoading := isAiLoading st; error := error st |}.

Definition setPdfData (v : option PDFData) (st : State) : State :=
  {| status := status st; pdfData := v; selectedIndices := selectedIndices st;
     aiQuery := aiQuery st; isAiLoading := isAiLoading st; error := error st |}.

Definition setSelectedIndices (v : NumSet.t) (st : State) : State :=
  {| status := status st; pdfData := pdfData st; selectedIndices := v;
     aiQuery := aiQuery st; isAiLoading := isAiLoading st; error := error st |}.

Definition setAiQuery (v : string) (st : State) : State :=
  {| status := status st; pdfData := pdfData st; selectedIndices := selectedIndices st;
     aiQuery := v; isAiLoading := isAiLoading st; error := error st |}.

Definition setIsAiLoading (v : bool) (st : State) : State :=
  {| status := status st; pdfData := pdfData st; selectedIndices := selectedIndices st;
     aiQuery := aiQuery st; isAiLoading := v; error := error st |}.

Definition setError (v : option string) (st : State) : State :=
  {| status := status st; pdfData := pdfData st; selectedIndices := selectedIndices st;
     aiQuery := aiQuery st; isAiLoading := isAiLoading st; error := v |}.

(** The file the browser is made to download. *)
Record Download : Set := {
  download : string;
  blob : Uint8Array
}.

(** A handler runs on the state of the render it was made in, and is
    taken here to its end: the state it leaves is the one the next
    handler runs on. *)
Section Handlers.

Variable E : Env.

Definition handleFileSelect (file : File) (st : State) : State :=
  let st := setStatus LOADING st in
  let st := setError None st in
  try_catch
    (data <- PdfService.parsePDF (pdfjs E) file ;;
     let st := setPdfData (Some data) st in
     let st := setStatus READY st in
     ret (setSelectedIndices empty st))
    (fun err =>
       let st := setError (Some "Failed to process PDF. Please try another file.") st in
       setStatus IDLE st).

Definition togglePageSelection (index : number) (st : State) : State :=
  setSelectedIndices
    (let prev := selectedIndices st in
     let next := of_iterable (to_array prev) in
     if has next index then delete next index
     else add next index)
    st.

Definition handleSelectAll (st : State) : State :=
  match pdfData st with
  | None => st
  | Some pdfData =>
      if Nat.eqb (size (selectedIndices st)) (List.length (pages pdfData))
      then setSelectedIndices empty st
      else setSelectedIndices (of_iterable (map index (pages pdfData))) st
  end.

(** [e.preventDefault()] does nothing to the state. *)
Definition handleAiSearch (st : State) : State :=
  match pdfData st with
  | None => st
  | Some pdfData =>
      if str_falsy (trim (aiQuery st)) || isAiLoading st then st
      else
        let st := setIsAiLoading true st in
        let st :=
          try_catch
            (suggestedIndices <-
               GeminiService.suggestPagesByQuery (genai E) (aiQuery st) (pages pdfData) ;;
             ret (setSelectedIndices (of_iterable suggestedIndices) st))
            (fun err => setError (Some "AI Search failed. Please try again.") st) in
        setIsAiLoading false st
  end.

Definition handleDownload (st : State) : State * option Download :=
  match pdfData st with
  | None => (st, None)
  | Some pdfData =>
      if Nat.eqb (size (selectedIndices st)) 0 then (st, None)
      else
        let st := setStatus PROCESSING st in
        let '(st, link) :=
          try_catch
            (let sortedIndices :=
               array_sort (fun a b => num_sub a b) (to_array (selectedIndices st)) in
             newPdfBytes <-
               PdfService.extractPages (codec E) (rawBytes pdfData) sortedIndices ;;
             ret (st, Some {| download := ("extracted_" ++ name pdfData)%string;
                              blob := newPdfBytes |}))
            (fun err => (setError (Some "Failed to generate PDF.") st, None)) in
        (setStatus READY st, link)
  end.

Definition reset (st : State) : State :=
  let st := setPdfData None st in
  let st := setSelectedIndices empty st in
  let st := setStatus IDLE st in
  let st := setAiQuery "" st in
  setError None st.

End Handlers.

End App.


(* ================================================================== *)
(** ** [components/Dropzone.tsx] *)
(* ================================================================== *)

Module Dropzone.

(** A [File] as the handlers of the drop zone see it: with its [type]. *)
Record DomFile : Set := {
  type : string;
  file : File
}.

Section Component.

(** The state of the parent component and the prop [onFileSelect],
    which acts on it. *)
Variable S : Type.
Variable onFileSelect : File -> S -> S.

(** The state is the hook [isDragActive], beside the state of the
    parent; [e.preventDefault()] does nothing to either. *)
Definition handleDragOver (st : bool * S) : bool * S := (true, snd st).

Definition handleDragLeave (st : bool * S) : bool * S := (false, snd st).

(** [files] is [e.dataTransfer.files]; [None] is a missing list, and a
    list without first element has [files[0]] undefined. *)
Definition handleDrop (files : option (list DomFile)) (st : bool * S) : bool * S :=
  let st := (false, snd st) in
  match files with
  | Some (file0 :: _) =>
      if String.eqb (type file0) "application/pdf"
      then (fst st, onFileSelect (file file0) (snd st))
      else st
  | _ => st
  end.

(** [files] is [e.target.files]. *)
Definition handleInputChange (files : option (list DomFile)) (st : bool * S) : bool * S :=
  match files with
  | Some (file0 :: _) => (fst st, onFileSelect (file file0) (snd st))
  | _ => st
  end.

End Component.

End Dropzone.


(* ================================================================== *)
(** ** Vocabulary of the statements *)
(* ================================================================== *)

Import PdfService GeminiService.

(** The canvas made for page number [i] yields a 2D context. *)
Definition has_context (P : PdfJs) (i : nat) : bool :=
  match getContext P i with
  | Some _ => true
  | None => false
  end.

(** Page number [i] of [pdf] can be fetched, painted on any context its
    canvas yields, and read for text. *)
Definition page_renders (P : PdfJs) (pdf : PDFDocumentProxy P) (i : nat) : Prop :=
  exists page,
    getPage P pdf i = inr page /\
    (forall ctx, getContext P i = Some ctx ->
                 render P page ctx (getViewport P page (Q2Qc 0.5)) = inr tt) /\
    (exists items, getTextContent P page = inr items).

(** [bytes] is a valid document for the rendering library: it opens as
    [pdf] and each of its pages renders. *)
Definition valid_document (P : PdfJs) (bytes : Uint8Array) (pdf : PDFDocumentProxy P) : Prop :=
  getDocument P bytes = inr pdf /\
  forall i, (1 <= i <= numPages P pdf)%nat -> page_renders P pdf i.

(** The index a record made for page number [i] carries. *)
Definition index_of_page_number (i : nat) : number := num_of_Z (Z.of_nat i - 1).

(** What is written can be read back: the contract between the writer
    and the parser of the document-assembly library. *)
Definition reads_back (C : PdfCodec) : Prop :=
  forall ps, pdf_parse C (pdf_serialize C ps) = inr ps.

(** The page of the output that stands for the index [k] of the source:
    the copy of the source page at [k]. *)
Definition copy_of (C : PdfCodec) (src : list (PageNode C)) (k : number) (p : PageNode C)
  : Prop :=
  exists q, array_get src k = Some q /\ p = pdf_copy C q.

(** [k] is a valid index into a document of [n] pages. *)
Definition valid_index (n : nat) (k : number) : Prop :=
  exists i, (i < n)%nat /\ k = num_of_nat i.

(** Fuel that is enough for [JSON.parse_at] to read what it reads when
    that takes [consumed] characters. *)
Definition fuel_needed (t : JSON.task) (consumed : nat) : nat :=
  match t with
  | JSON.TValue => 2 * consumed
  | _ => 2 * consumed + 1
  end.

(** Page number [i] of [pdf] makes the loop of [parsePDF] throw: it
    cannot be fetched, or its canvas yields a context and painting it
    or reading its text fails. *)
Definition page_fails (P : PdfJs) (pdf : PDFDocumentProxy P) (i : nat) : Prop :=
  match getPage P pdf i with
  | inl _ => True
  | inr page =>
      match getContext P i with
      | None => False
      | Some ctx =>
          match render P page ctx (getViewport P page (Q2Qc 0.5)) with
          | inl _ => True
          | inr _ =>
              match getTextContent P page with
              | inl _ => True
              | inr _ => False
              end
          end
      end
  end.

(** [r] is the record of page number [i] of [pdf]: its index, the
    encoded picture of the page at half scale, and its text items
    joined by single spaces. *)
Definition record_of_page (P : PdfJs) (pdf : PDFDocumentProxy P) (i : nat)
  (r : PDFPagePreview) : Prop :=
  exists page items,
    getPage P pdf i = inr page /\
    getTextContent P page = inr items /\
    r = {| index := index_of_page_number i;
           thumbnail := toDataURL P page (getViewport P page (Q2Qc 0.5));
           textContent := join " " (map str items) |}.

(** Every character of [s] is white space. *)
Fixpoint all_white_space (s : string) : bool :=
  match s with
  | EmptyString => true
  | String c s' => is_white_space c && all_white_space s'
  end.

(** A value is a JSON number. *)
Definition is_JNumber (v : JSON.value) : bool :=
  match v with
  | JSON.JNumber _ => true
  | _ => false
  end.

(** A response body from which no array can be read: no text at all,
    text that does not parse, or text that parses to something else. *)
Definition no_array (body : option string) : Prop :=
  match body with
  | None => True
  | Some t =>
      match JSON.parse t with
      | inl _ => True
      | inr v => JSON.isArray v = false
      end
  end.


(* ================================================================== *)
(** ** A small instance of the libraries, to run the code on *)
(* ================================================================== *)

Module Sample.

(** A document is the byte [%] followed by one byte per page. *)
Definition sample_parse (bytes : Uint8Array) : result (list byte) :=
  match bytes with
  | x25 :: ps => ret ps
  | _ => throw (LibraryError "No PDF header found")
  end.

Definition sample_codec : PdfCodec :=
  {| PageNode := byte;
     pdf_parse := sample_parse;
     pdf_copy := fun p => p;
     pdf_blank := x00;
     pdf_serialize := fun ps => x25 :: ps |}.

(** The same documents, rendered on canvases of which [contexts] tells
    which ones yield a context. *)
Definition sample_pdfjs (contexts : nat -> bool) : PdfJs :=
  {| PDFDocumentProxy := list byte;
     PDFPageProxy := byte;
     CanvasContext := unit;
     getDocument := sample_parse;
     numPages := fun pdf => List.length pdf;
     getPage := fun pdf i =>
       match i with
       | O => throw (LibraryError "Invalid page request.")
       | S j =>
           match nth_error pdf j with
           | Some p => ret p
           | None => throw (LibraryError "Invalid page request.")
           end
       end;
     getViewport := fun _ scale => {| height := (scale * Q2Qc 792)%Qc;
                                      width := (scale * Q2Qc 612)%Qc |};
     getContext := fun i => if contexts i then Some tt else None;
     render := fun _ _ _ => ret tt;
     toDataURL := fun _ _ => "data:image/webp;base64,";
     getTextContent := fun p =>
       ret [ {| str := "page" |};
             {| str := String (ascii_of_byte p) EmptyString |} ] |}.

(** A service that answers every request with the same body. *)
Definition sample_genai (body : option string) : GenAI :=
  {| generateContent := fun _ => ret {| text := body |};
     JSON_stringify := fun _ => "[]" |}.

Definition sample_env (body : option string) : Env :=
  {| pdfjs := sample_pdfjs (fun _ => true);
     codec := sample_codec;
     genai := sample_genai body |}.

(** Five pages, [a] to [e]. *)
Definition five_pages : Uint8Array := [x25; x61; x62; x63; x64; x65].

(** Three pages, [a] to [c]. *)
Definition three_pages : Uint8Array := [x25; x61; x62; x63].

(** One page. *)
Definition one_page : Uint8Array := [x25; x61].

Definition file_of (bytes : Uint8Array) : File :=
  {| file_name := "sample.pdf";
     file_size := num_of_nat (List.length bytes);
     arrayBuffer := bytes |}.

(** The body of the spec's example, [[1, 2, "x", 4]]. *)
Definition mixed_body : string :=
  ("[1, 2, " ++ dquote ++ "x" ++ dquote ++ ", 4]")%string.

(** A state with [bytes] loaded and [selection] selected. *)
Definition loaded (bytes : Uint8Array) (pgs : list PDFPagePreview) (selection : list number)
  : App.State :=
  {| App.status := READY;
     App.pdfData := Some {| name := "sample.pdf";
                            size := num_of_nat (List.length bytes);
                            pages := pgs;
                            rawBytes := bytes |};
     App.selectedIndices := selection;
     App.aiQuery := "invoices";
     App.isAiLoading := false;
     App.error := None |}.

Definition page_record (i : nat) : PDFPagePreview :=
  {| index := num_of_nat i; thumbnail := "data:image/webp;base64,"; textContent := "page" |}.

(** The same library, except that the text of a page whose byte is 0
    cannot be read. *)
Definition fragile_pdfjs : PdfJs :=
  {| PDFDocumentProxy := list byte;
     PDFPageProxy := byte;
     CanvasContext := unit;
     getDocument := sample_parse;
     numPages := fun pdf => List.length pdf;
     getPage := getPage (sample_pdfjs (fun _ => true));
     getViewport := getViewport (sample_pdfjs (fun _ => true));
     getContext := fun _ => Some tt;
     render := fun _ _ _ => ret tt;
     toDataURL := fun _ _ => "data:image/webp;base64,";
     getTextContent := fun p =>
       if Byte.eqb p x00 then throw (LibraryError "Invalid content stream")
       else ret [ {| str := "page" |} ] |}.

(** Three pages, the second one with unreadable text. *)
Definition damaged_pages : Uint8Array := [x25; x61; x00; x63].

(** A service that rejects every request. *)
Definition failing_genai : GenAI :=
  {| generateContent := fun _ => throw (LibraryError "503 Service Unavailable");
     JSON_stringify := fun _ => "[]" |}.

Definition failing_env : Env :=
  {| pdfjs := sample_pdfjs (fun _ => true);
     codec := sample_codec;
     genai := failing_genai |}.

Definition fragile_env : Env :=
  {| pdfjs := fragile_pdfjs;
     codec := sample_codec;
     genai := sample_genai None |}.

(** A dropped document of three pages. *)
Definition pdf_file : Dropzone.DomFile :=
  {| Dropzone.type := "application/pdf"; Dropzone.file := file_of three_pages |}.

(** A dropped text file. *)
Definition text_file : Dropzone.DomFile :=
  {| Dropzone.type := "text/plain"; Dropzone.file := file_of [x68; x69] |}.

End Sample.


(* ================================================================== *)
(** ** Facts about the runtime *)
(* ================================================================== *)

Unset Implicit Arguments.

Module JsFacts.

Import NumSet.

Lemma num_eqb_eq (a b : number) : num_eqb a b = true <-> a = b.
Proof.
  unfold num_eqb. rewrite Qeq_bool_iff. split.
  - apply Qc_is_canon.
  - intros ->. reflexivity.
Qed.

Lemma num_eqb_refl (a : number) : num_eqb a a = true.
Proof. now apply num_eqb_eq. Qed.

Lemma num_eqb_neq (a b : number) : num_eqb a b = false <-> a <> b.
Proof.
  rewrite <- num_eqb_eq. destruct (num_eqb a b); split; congruence.
Qed.

Lemma num_eqb_sym (a b : number) : num_eqb a b = num_eqb b a.
Proof.
  destruct (num_eqb b a) eqn:E.
  - apply num_eqb_eq in E. subst. apply num_eqb_refl.
  - apply num_eqb_neq. apply num_eqb_neq in E. congruence.
Qed.

(** An integer is its own reduced fraction. *)
Lemma this_num_of_Z (z : Z) : this (num_of_Z z) = inject_Z z.
Proof.
  change (Qred (inject_Z z) = inject_Z z).
  apply Qred_identity. simpl. apply Z.gcd_1_r.
Qed.

Lemma num_of_Z_inj (a b : Z) : num_of_Z a = num_of_Z b -> a = b.
Proof.
  intros H. apply (f_equal this) in H. rewrite !this_num_of_Z in H.
  now injection H.
Qed.

Lemma num_of_Z_lt (a b : Z) : (a < b)%Z -> (num_of_Z a < num_of_Z b)%Qc.
Proof.
  intros H. unfold Qclt. rewrite !this_num_of_Z. now rewrite <- Zlt_Qlt.
Qed.

Lemma isInteger_num_of_Z (z : Z) : isInteger (num_of_Z z) = true.
Proof. unfold isInteger. now rewrite this_num_of_Z. Qed.

(** Indexing by the number of a position is indexing by the position. *)
Lemma array_get_num_of_nat {A} (arr : list A) (i : nat) :
  array_get arr (num_of_nat i) = nth_error arr i.
Proof.
  unfold array_get, num_of_nat. rewrite isInteger_num_of_Z, this_num_of_Z. simpl.
  replace (0 <=? Z.of_nat i)%Z with true by (symmetry; apply Z.leb_le; lia).
  now rewrite Nat2Z.id.
Qed.

(** Indexing by a negative integer or by one from the length on is
    [undefined]. *)
Lemma array_get_out_of_range {A} (arr : list A) (z : Z) :
  (z < 0 \/ Z.of_nat (List.length arr) <= z)%Z -> array_get arr (num_of_Z z) = None.
Proof.
  intros H. unfold array_get. rewrite isInteger_num_of_Z, this_num_of_Z. simpl.
  destruct (0 <=? z)%Z eqn:E; [|reflexivity].
  apply Z.leb_le in E. apply nth_error_None. lia.
Qed.

Lemma array_get_valid {A} (arr : list A) (k : number) :
  valid_index (List.length arr) k -> exists x, array_get arr k = Some x.
Proof.
  intros (i & Hi & ->). rewrite array_get_num_of_nat.
  destruct (nth_error arr i) eqn:E; [eauto|].
  apply nth_error_None in E. lia.
Qed.

(** *** Sets *)

Lemma has_In (s : t) (x : number) : has s x = true <-> In x s.
Proof.
  unfold has. rewrite existsb_exists. split.
  - intros (y & Hy & E). apply num_eqb_eq in E. now subst.
  - intros H. exists x. split; [assumption|apply num_eqb_refl].
Qed.

Lemma has_app (s s' : t) (x : number) : has (s ++ s') x = has s x || has s' x.
Proof. unfold has. apply existsb_app. Qed.

Lemma has_add (s : t) (x y : number) : has (add s x) y = has s y || num_eqb y x.
Proof.
  unfold add. destruct (has s x) eqn:E.
  - destruct (num_eqb y x) eqn:Eyx; [|now rewrite orb_false_r].
    apply num_eqb_eq in Eyx. subst. now rewrite E.
  - rewrite has_app. simpl. now rewrite orb_false_r.
Qed.

Lemma has_delete (s : t) (x y : number) :
  has (delete s x) y = has s y && negb (num_eqb y x).
Proof.
  unfold has, delete. induction s as [|z s IH]; simpl; [reflexivity|].
  destruct (num_eqb x z) eqn:E; simpl; rewrite IH.
  - apply num_eqb_eq in E. subst z.
    destruct (num_eqb y x); simpl; [now rewrite andb_false_r|reflexivity].
  - destruct (num_eqb y z) eqn:Eyz; simpl; [|reflexivity].
    apply num_eqb_eq in Eyz. subst z. now rewrite (num_eqb_sym y x), E.
Qed.

Lemma has_fold_add (l : list number) (s : t) (x : number) :
  has (fold_left add l s) x = has s x || existsb (num_eqb x) l.
Proof.
  revert s. induction l as [|y l IH]; intros s; simpl.
  - now rewrite orb_false_r.
  - rewrite IH, has_add. now rewrite orb_assoc.
Qed.

Lemma has_of_iterable (l : list number) (x : number) :
  has (of_iterable l) x = existsb (num_eqb x) l.
Proof. unfold of_iterable. now rewrite has_fold_add. Qed.

Lemma of_iterable_In (l : list number) (x : number) :
  has (of_iterable l) x = true <-> In x l.
Proof. rewrite has_of_iterable. apply (has_In l x). Qed.

(** Adding values that are new and distinct appends them. *)
Lemma fold_add_fresh (l : list number) (s : t) :
  NoDup l -> (forall x, In x l -> ~ In x s) -> fold_left add l s = s ++ l.
Proof.
  revert s. induction l as [|y l IH]; intros s Hnd Hfresh; simpl.
  - now rewrite app_nil_r.
  - inversion Hnd as [|? ? Hy Hl]; subst.
    assert (E : has s y = false).
    { destruct (has s y) eqn:E; [|reflexivity].
      apply has_In in E. exfalso. apply (Hfresh y); [now left|assumption]. }
    unfold add at 2. rewrite E. rewrite IH; [now rewrite <- app_assoc|assumption|].
    intros x Hx Hin. apply in_app_or in Hin. destruct Hin as [Hin|[->|[]]].
    + apply (Hfresh x); [now right|assumption].
    + contradiction.
Qed.

Lemma of_iterable_NoDup (l : list number) : NoDup l -> of_iterable l = l.
Proof.
  intros H. unfold of_iterable. rewrite fold_add_fresh; auto.
Qed.

(** *** Sorting *)

Lemma sort_insert_perm {A} (cmp : A -> A -> number) (x : A) (l : list A) :
  Permutation (x :: l) (sort_insert cmp x l).
Proof.
  induction l as [|y l IH]; simpl; [reflexivity|].
  destruct (num_pos (cmp x y)); [|reflexivity].
  rewrite perm_swap. now apply perm_skip.
Qed.

Lemma array_sort_perm {A} (cmp : A -> A -> number) (l : list A) :
  Permutation l (array_sort cmp l).
Proof.
  induction l as [|x l IH]; simpl; [reflexivity|].
  rewrite <- sort_insert_perm. now apply perm_skip.
Qed.

Lemma array_sort_In {A} (cmp : A -> A -> number) (l : list A) (x : A) :
  In x (array_sort cmp l) <-> In x l.
Proof.
  split; apply Permutation_in; [symmetry|]; apply array_sort_perm.
Qed.





End JsFacts.


(* ================================================================== *)
(** ** [JSON.parse]: the fuel is enough *)
(* ================================================================== *)

Module JSONFacts.

Import JSON.

Lemma skip_ws_length (s : list ascii) : (List.length (skip_ws s) <= List.length s)%nat.
Proof.
  induction s as [|c s IH]; simpl; [lia|]. destruct (is_ws c); simpl; lia.
Qed.

Lemma read_digits_length (s : list ascii) :
  forall v k v' k' rest,
    read_digits s v k = (v', k', rest) -> (List.length rest <= List.length s)%nat.
Proof.
  induction s as [|c s IH]; intros v k v' k' rest H; simpl in H.
  - injection H as <- <- <-. simpl. lia.
  - destruct (is_digit c).
    + apply IH in H. simpl. lia.
    + injection H as <- <- <-. simpl. lia.
Qed.

Lemma read_fraction_length (int : Z) (s : list ascii) m k rest :
  read_fraction int s = Some (m, k, rest) -> (List.length rest <= List.length s)%nat.
Proof.
  unfold read_fraction. destruct s as [|c s]; [intros H; injection H as <- <- <-; simpl; lia|].
  destruct (code c =? 46)%N.
  - destruct (read_digits s int 0) as [[m' k'] rest'] eqn:E.
    apply read_digits_length in E.
    destruct k'; [discriminate|]. intros H. injection H as <- <- <-. simpl. lia.
  - intros H. injection H as <- <- <-. simpl. lia.
Qed.

Lemma read_exponent_length (s : list ascii) e rest :
  read_exponent s = Some (e, rest) -> (List.length rest <= List.length s)%nat.
Proof.
  unfold read_exponent. destruct s as [|c s]; [intros H; injection H as <- <-; simpl; lia|].
  destruct ((code c =? 101) || (code c =? 69))%N;
    [|intros H; injection H as <- <-; simpl; lia].
  assert (Hsign : forall neg s'',
             (List.length s'' <= List.length s)%nat ->
             match read_digits s'' 0 0 with
             | (_, O, _) => None
             | (e0, S _, rest0) => Some (if neg : bool then (- e0)%Z else e0, rest0)
             end = Some (e, rest) ->
             (List.length rest <= List.length (c :: s))%nat).
  { intros neg s'' Hs'' H.
    destruct (read_digits s'' 0 0) as [[e0 k0] rest0] eqn:E.
    apply read_digits_length in E. destruct k0; [discriminate|].
    injection H as _ <-. simpl. lia. }
  destruct s as [|d t]; [apply (Hsign false); simpl; lia|].
  destruct (code d =? 45)%N; [apply (Hsign true); simpl; lia|].
  destruct (code d =? 43)%N; apply (Hsign false); simpl; lia.
Qed.

Lemma parse_number_length (s : list ascii) x rest :
  parse_number s = Some (x, rest) -> (List.length rest < List.length s)%nat.
Proof.
  unfold parse_number.
  assert (Hint : forall s1,
             (List.length s1 <= List.length s)%nat ->
             forall int s2,
               match s1 with
               | c :: t =>
                   if (code c =? 48)%N then Some (0%Z, t)
                   else if is_digit c then
                          let '(v, _, rest) := read_digits s1 0 0 in Some (v, rest)
                        else None
               | [] => None
               end = Some (int, s2) ->
               (List.length s2 < List.length s)%nat).
  { intros s1 Hs1 int s2 H. destruct s1 as [|c t]; [discriminate|].
    destruct (code c =? 48)%N; [injection H as <- <-; simpl in Hs1; lia|].
    destruct (is_digit c) eqn:Ed; [|discriminate].
    cbn [read_digits] in H. rewrite Ed in H.
    destruct (read_digits t (10 * 0 + digit_val c) 1) as [[v k] r] eqn:E.
    apply read_digits_length in E. injection H as <- <-. simpl in Hs1. lia. }
  destruct (match s with
            | c :: t => if (code c =? 45)%N then (true, t) else (false, s)
            | [] => (false, s)
            end) as [neg s1] eqn:Es1.
  assert (Hs1 : (List.length s1 <= List.length s)%nat).
  { destruct s as [|c t]; [injection Es1 as <- <-; simpl; lia|].
    destruct (code c =? 45)%N; injection Es1 as <- <-; simpl; lia. }
  specialize (Hint s1 Hs1).
  destruct (match s1 with
            | c :: t =>
                if (code c =? 48)%N then Some (0%Z, t)
                else if is_digit c then
                       let '(v, _, rest) := read_digits s1 0 0 in Some (v, rest)
                     else None
            | [] => None
            end) as [[int s2]|]; [|discriminate].
  specialize (Hint int s2 eq_refl).
  destruct (read_fraction int s2) as [[[mant decimals] s3]|] eqn:Ef; [|discriminate].
  apply read_fraction_length in Ef.
  destruct (read_exponent s3) as [[e s4]|] eqn:Ee; [|discriminate].
  apply read_exponent_length in Ee.
  intros H. injection H as _ <-. lia.
Qed.

Lemma parse_string_body_length (n : nat) :
  forall s acc u rest,
    (List.length s <= n)%nat ->
    parse_string_body s acc = Some (u, rest) -> (List.length rest < List.length s)%nat.
Proof.
  induction n as [|n IH]; intros s acc u rest Hn H.
  - destruct s; [discriminate|simpl in Hn; lia].
  - destruct s as [|c s]; [discriminate|]. simpl in H.
    destruct (code c =? 34)%N; [injection H as _ <-; simpl; lia|].
    destruct (code c <? 32)%N; [discriminate|].
    destruct (code c =? 92)%N.
    + destruct s as [|e s1]; [discriminate|].
      destruct (code e =? 117)%N.
      * destruct s1 as [|h1 [|h2 [|h3 [|h4 s2]]]]; try discriminate.
        destruct (hex_val h1), (hex_val h2), (hex_val h3), (hex_val h4); try discriminate.
        apply IH in H; simpl in *; lia.
      * destruct (escape_val e); [|discriminate].
        apply IH in H; simpl in *; lia.
    + apply IH in H; simpl in *; lia.
Qed.

Lemma expect_length (w : list ascii) :
  forall s rest, expect w s = Some rest -> (List.length rest <= List.length s)%nat.
Proof.
  induction w as [|a w IH]; intros s rest H; simpl in H.
  - destruct s; injection H as <-; lia.
  - destruct s as [|b s]; [discriminate|].
    destruct (Ascii.eqb a b); [|discriminate]. apply IH in H. simpl. lia.
Qed.

Lemma literal_length (w : string) (v : value) (s : list ascii) v' rest :
  literal w v s = Some (v', rest) -> (List.length rest <= List.length s)%nat.
Proof.
  unfold literal. destruct (expect (list_ascii_of_string w) s) eqn:E; [|discriminate].
  intros H. injection H as _ <-. now apply expect_length in E.
Qed.

Ltac refuel g Hg :=
  intros g Hg; destruct g as [|g]; [unfold fuel_needed in Hg; simpl in *; lia|];
  cbn [parse_at].

(** A parse that ends ends the same way on any fuel that is enough for
    the characters it reads, and it reads at least one. *)
Lemma parse_at_refuel (f : nat) :
  forall t s v rest,
    parse_at f t s = Some (v, rest) ->
    (List.length rest < List.length s)%nat /\
    forall g, (fuel_needed t (List.length s - List.length rest) <= g)%nat ->
              parse_at g t s = Some (v, rest).
Proof.
  induction f as [|f IH]; intros t s v rest H; [discriminate|].
  cbn [parse_at] in H. destruct t as [|acc|acc].
  - (* a value *)
    pose proof (skip_ws_length s) as Hws.
    destruct (skip_ws s) as [|c r0] eqn:Hs; [discriminate|]. simpl in Hws.
    destruct (code c =? 91)%N eqn:E91.
    { pose proof (skip_ws_length r0) as Hws0.
      destruct (skip_ws r0) as [|c' r1] eqn:Hr0; [discriminate|]. simpl in Hws0.
      destruct (code c' =? 93)%N eqn:E93.
      - injection H as <- <-. split; [lia|]. refuel g Hg.
        now rewrite Hs, E91, Hr0, E93.
      - apply IH in H. destruct H as [Hlen Hfuel]. split; [lia|]. refuel g Hg.
        rewrite Hs, E91, Hr0, E93. apply Hfuel.
        unfold fuel_needed in *. simpl in *. lia. }
    destruct (code c =? 123)%N eqn:E123.
    { pose proof (skip_ws_length r0) as Hws0.
      destruct (skip_ws r0) as [|c' r1] eqn:Hr0; [discriminate|]. simpl in Hws0.
      destruct (code c' =? 125)%N eqn:E125.
      - injection H as <- <-. split; [lia|]. refuel g Hg.
        now rewrite Hs, E91, E123, Hr0, E125.
      - apply IH in H. destruct H as [Hlen Hfuel]. split; [lia|]. refuel g Hg.
        rewrite Hs, E91, E123, Hr0, E125. apply Hfuel.
        unfold fuel_needed in *. simpl in *. lia. }
    assert (Hlen : (List.length rest < List.length s)%nat).
    { destruct (code c =? 34)%N.
      { destruct (parse_string_body r0 []) as [[u r1]|] eqn:Eb; [|discriminate].
        apply (parse_string_body_length (List.length r0)) in Eb; [|lia].
        injection H as _ <-. lia. }
      destruct (code c =? 116)%N; [apply literal_length in H; lia|].
      destruct (code c =? 102)%N; [apply literal_length in H; lia|].
      destruct (code c =? 110)%N; [apply literal_length in H; lia|].
      destruct (parse_number (c :: r0)) as [[x r1]|] eqn:En; [|discriminate].
      apply parse_number_length in En. injection H as _ <-. simpl in En. lia. }
    split; [exact Hlen|]. refuel g Hg. now rewrite Hs, E91, E123.
  - (* the rest of an array *)
    destruct (parse_at f TValue s) as [[v1 r1]|] eqn:E1; [|discriminate].
    apply IH in E1. destruct E1 as [Hl1 Hf1].
    pose proof (skip_ws_length r1) as Hws.
    destruct (skip_ws r1) as [|c r2] eqn:Hr1; [discriminate|]. simpl in Hws.
    destruct (code c =? 44)%N eqn:E44.
    + apply IH in H. destruct H as [Hl2 Hf2]. split; [lia|]. refuel g Hg.
      rewrite (Hf1 g) by (unfold fuel_needed in *; simpl in *; lia).
      rewrite Hr1, E44. apply Hf2. unfold fuel_needed in *. simpl in *. lia.
    + destruct (code c =? 93)%N eqn:E93; [|discriminate].
      injection H as <- <-. split; [lia|]. refuel g Hg.
      rewrite (Hf1 g) by (unfold fuel_needed in *; simpl in *; lia).
      now rewrite Hr1, E44, E93.
  - (* the rest of an object *)
    pose proof (skip_ws_length s) as Hws.
    destruct (skip_ws s) as [|q s1] eqn:Hs; [discriminate|]. simpl in Hws.
    destruct (code q =? 34)%N eqn:E34; [|discriminate].
    destruct (parse_string_body s1 []) as [[key s2]|] eqn:Ek; [|discriminate].
    pose proof (parse_string_body_length (List.length s1) s1 [] key s2 (le_n _) Ek) as Hk.
    pose proof (skip_ws_length s2) as Hws2.
    destruct (skip_ws s2) as [|colon s3] eqn:Hs2; [discriminate|]. simpl in Hws2.
    destruct (code colon =? 58)%N eqn:E58; [|discriminate].
    destruct (parse_at f TValue s3) as [[v1 r1]|] eqn:E1; [|discriminate].
    apply IH in E1. destruct E1 as [Hl1 Hf1].
    pose proof (skip_ws_length r1) as Hws1.
    destruct (skip_ws r1) as [|c r2] eqn:Hr1; [discriminate|]. simpl in Hws1.
    destruct (code c =? 44)%N eqn:E44.
    + apply IH in H. destruct H as [Hl2 Hf2]. split; [lia|]. refuel g Hg.
      rewrite Hs, E34, Ek, Hs2, E58.
      rewrite (Hf1 g) by (unfold fuel_needed in *; simpl in *; lia).
      rewrite Hr1, E44. apply Hf2. unfold fuel_needed in *. simpl in *. lia.
    + destruct (code c =? 125)%N eqn:E125; [|discriminate].
      injection H as <- <-. split; [lia|]. refuel g Hg.
      rewrite Hs, E34, Ek, Hs2, E58.
      rewrite (Hf1 g) by (unfold fuel_needed in *; simpl in *; lia).
      now rewrite Hr1, E44, E125.
Qed.

(** The fuel [JSON.parse] gives is enough for any text: whatever some
    fuel reads, that fuel reads as well. *)
Lemma parse_at_enough (s : list ascii) (f : nat) (v : value) (rest : list ascii) :
  parse_at f TValue s = Some (v, rest) ->
  parse_at (2 * List.length s + 2) TValue s = Some (v, rest).
Proof.
  intros H. apply parse_at_refuel in H. destruct H as [Hlen Hfuel].
  apply Hfuel. unfold fuel_needed. lia.
Qed.

(** [JSON.parse] returns a value exactly when the text is that value
    between white space, for the grammar read with fuel at will. *)
Lemma parse_returns (text : string) (v : value) :
  parse text = inr v <->
  exists f rest,
    parse_at f TValue (list_ascii_of_string text) = Some (v, rest) /\ skip_ws rest = [].
Proof.
  unfold parse. split.
  - destruct (parse_at _ TValue (list_ascii_of_string text)) as [[v' rest]|] eqn:E;
      [|discriminate].
    destruct (skip_ws rest) eqn:Er; [|discriminate].
    intros H. injection H as <-. eauto.
  - intros (f & rest & H & Hr). rewrite (parse_at_enough _ f v rest H), Hr. reflexivity.
Qed.

End JSONFacts.


(* ================================================================== *)
(** ** [parsePDF] *)
(* ================================================================== *)

Module ParsePDFFacts.

Import JsFacts.

Section Loop.

Variable P : PdfJs.
Variable pdf : PDFDocumentProxy P.

(** One iteration on a page that renders: one record with the page's
    index when its canvas yields a context, none otherwise. *)
Lemma parsePDF_body_renders (i : nat) (pages : list PDFPagePreview) :
  page_renders P pdf i ->
  exists recs,
    parsePDF_body P pdf i pages = inr (pages ++ recs) /\
    map index recs = if has_context P i then [index_of_page_number i] else [].
Proof.
  intros (page & Hpage & Hrender & items & Hitems).
  unfold parsePDF_body, has_context. rewrite Hpage. simpl.
  destruct (getContext P i) as [ctx|] eqn:Hctx.
  - rewrite (Hrender ctx eq_refl). simpl. rewrite Hitems. simpl.
    eexists. split; reflexivity.
  - exists []. now rewrite app_nil_r.
Qed.

Lemma parsePDF_loop_renders (remaining : nat) :
  forall (i : nat) (pages : list PDFPagePreview),
    (forall j, (i <= j < i + remaining)%nat -> page_renders P pdf j) ->
    exists recs,
      parsePDF_loop P pdf remaining i pages = inr (pages ++ recs) /\
      map index recs =
        map index_of_page_number (filter (has_context P) (seq i remaining)).
Proof.
  induction remaining as [|r IH]; intros i pages Hall; simpl.
  - exists []. now rewrite app_nil_r.
  - destruct (parsePDF_body_renders i pages) as (recs1 & E1 & M1); [apply Hall; lia|].
    rewrite E1. simpl.
    destruct (IH (S i) (pages ++ recs1)) as (recs2 & E2 & M2);
      [intros j Hj; apply Hall; lia|].
    exists (recs1 ++ recs2). split.
    + now rewrite E2, app_assoc.
    + rewrite map_app, M1, M2. destruct (has_context P i); reflexivity.
Qed.

End Loop.

Lemma index_of_page_number_S (i : nat) : index_of_page_number (S i) = num_of_nat i.
Proof. unfold index_of_page_number, num_of_nat. f_equal. lia. Qed.

(** The indices of an increasing run of page numbers, some left out,
    are strictly increasing. *)
Lemma indices_increasing (keep : nat -> bool) (n : nat) :
  forall a,
    StronglySorted Qclt (map index_of_page_number (filter keep (seq a n))).
Proof.
  induction n as [|n IH]; intros a; simpl; [constructor|].
  destruct (keep a); simpl; [|apply IH].
  constructor; [apply IH|].
  apply Forall_forall. intros x Hx.
  apply in_map_iff in Hx. destruct Hx as (j & <- & Hj).
  apply filter_In in Hj. destruct Hj as [Hj _]. apply in_seq in Hj.
  apply num_of_Z_lt. lia.
Qed.

Lemma filter_all {A} (f : A -> bool) (l : list A) :
  (forall x, In x l -> f x = true) -> filter f l = l.
Proof.
  induction l as [|x l IH]; intros H; simpl; [reflexivity|].
  rewrite (H x (or_introl eq_refl)). f_equal. apply IH. intros y Hy. apply H. now right.
Qed.

Lemma filter_length {A} (f : A -> bool) (l : list A) :
  (List.length (filter f l) <= List.length l)%nat.
Proof.
  induction l as [|x l IH]; simpl; [lia|]. destruct (f x); simpl; lia.
Qed.

Lemma indices_all (n : nat) :
  map index_of_page_number (seq 1 n) = map num_of_nat (seq 0 n).
Proof.
  rewrite <- seq_shift, map_map. apply map_ext. intros i. apply index_of_page_number_S.
Qed.

(** Strictly increasing numbers are pairwise distinct. *)
Lemma increasing_NoDup (l : list number) : StronglySorted Qclt l -> NoDup l.
Proof.
  induction 1 as [|x l Hs IH Hx]; constructor; [|assumption].
  intros Hin. rewrite Forall_forall in Hx.
  apply (Qclt_not_eq x x (Hx x Hin)). reflexivity.
Qed.

(** What [parsePDF] returns for a valid document: the array it gave
    to [getDocument], and the records of the pages whose canvas yields
    a context. *)
Lemma parsePDF_indices (P : PdfJs) (file : File) (pdf : PDFDocumentProxy P) :
  valid_document P (arrayBuffer file) pdf ->
  exists data,
    parsePDF P file = inr data /\
    rawBytes data = transferred (arrayBuffer file) /\
    map index (pages data) =
      map index_of_page_number (filter (has_context P) (seq 1 (numPages P pdf))).
Proof.
  intros [Hdoc Hpages].
  destruct (parsePDF_loop_renders P pdf (numPages P pdf) 1 [])
    as (recs & Hloop & Hidx); [intros j Hj; apply Hpages; lia|].
  unfold parsePDF. rewrite Hdoc. simpl. rewrite Hloop. simpl.
  eexists. split; [reflexivity|]. split; [reflexivity|exact Hidx].
Qed.

(** The records of a parsed document have pairwise distinct indices,
    whichever pages were left out. *)
Lemma parsePDF_NoDup (P : PdfJs) (file : File) (pdf : PDFDocumentProxy P) (data : PDFData) :
  valid_document P (arrayBuffer file) pdf ->
  parsePDF P file = inr data ->
  NoDup (map index (pages data)).
Proof.
  intros Hv Hp. destruct (parsePDF_indices P file pdf Hv) as (data' & E & _ & Hidx).
  rewrite Hp in E. injection E as <-.
  rewrite Hidx. apply increasing_NoDup, indices_increasing.
Qed.

End ParsePDFFacts.

(** C1, as the code has it.  For a valid document of P pages, [parsePDF]
    returns one record for each page number whose canvas yields a 2D
    context, and none for the others; the records come in the order of
    the page numbers and carry the page number minus 1, so that their
    indices are strictly increasing and there are at most P of them.
    When every canvas yields a context, there are exactly P records and
    their indices are 0..P-1. *)
Theorem parsePDF_pages (P : PdfJs) (file : File) (pdf : PDFDocumentProxy P) :
  valid_document P (arrayBuffer file) pdf ->
  exists data,
    parsePDF P file = inr data /\
    map index (pages data) =
      map index_of_page_number (filter (has_context P) (seq 1 (numPages P pdf))) /\
    StronglySorted Qclt (map index (pages data)) /\
    (List.length (pages data) <= numPages P pdf)%nat /\
    ((forall i, (1 <= i <= numPages P pdf)%nat -> has_context P i = true) ->
     map index (pages data) = map num_of_nat (seq 0 (numPages P pdf))).
Proof.
  intros Hvalid.
  destruct (ParsePDFFacts.parsePDF_indices P file pdf Hvalid) as (data & Hdata & _ & Hidx).
  exists data. split; [exact Hdata|].
  split; [exact Hidx|]. split; [|split].
  - rewrite Hidx. apply ParsePDFFacts.indices_increasing.
  - rewrite <- (length_map index), Hidx, length_map.
    etransitivity; [apply ParsePDFFacts.filter_length|]. now rewrite length_seq.
  - intros Hall. rewrite Hidx, ParsePDFFacts.filter_all.
    + apply ParsePDFFacts.indices_all.
    + intros i Hi. apply in_seq in Hi. apply Hall. lia.
Qed.

Module SampleFacts.

Import Sample.

Lemma sample_valid (contexts : nat -> bool) (bytes : Uint8Array) (ps : list byte) :
  sample_parse bytes = inr ps ->
  valid_document (sample_pdfjs contexts) bytes ps.
Proof.
  intros H. split; [exact H|].
  intros i Hi. simpl in Hi. destruct i as [|j]; [lia|].
  destruct (nth_error ps j) as [p|] eqn:E.
  - exists p. simpl. rewrite E. repeat split; eauto.
  - apply nth_error_None in E. lia.
Qed.

Lemma sample_reads_back : reads_back sample_codec.
Proof. intros ps. reflexivity. Qed.

Lemma NoDup_num_of_nat (l : list nat) : NoDup l -> NoDup (map num_of_nat l).
Proof.
  induction 1 as [|x l Hx Hl IH]; simpl; constructor; [|assumption].
  rewrite in_map_iff. intros (y & E & Hy).
  apply JsFacts.num_of_Z_inj in E. assert (y = x) by lia. now subst.
Qed.

End SampleFacts.

(** The theorem of C1 on five pages whose canvases all yield a context. *)
Lemma parsePDF_pages_witness :
  valid_document (Sample.sample_pdfjs (fun _ => true))
    (arrayBuffer (Sample.file_of Sample.five_pages)) [x61; x62; x63; x64; x65] /\
  exists data,
    parsePDF (Sample.sample_pdfjs (fun _ => true)) (Sample.file_of Sample.five_pages) = inr data /\
    map index (pages data) =
      map index_of_page_number
        (filter (has_context (Sample.sample_pdfjs (fun _ => true))) (seq 1 5)) /\
    StronglySorted Qclt (map index (pages data)) /\
    (List.length (pages data) <= 5)%nat /\
    ((forall i, (1 <= i <= 5)%nat ->
                has_context (Sample.sample_pdfjs (fun _ => true)) i = true) ->
     map index (pages data) = map num_of_nat (seq 0 5)).
Proof.
  split.
  - apply SampleFacts.sample_valid. reflexivity.
  - apply (parsePDF_pages (Sample.sample_pdfjs (fun _ => true))
             (Sample.file_of Sample.five_pages) [x61; x62; x63; x64; x65]).
    apply SampleFacts.sample_valid. reflexivity.
Defined.

(** C1 as stated fails: on a valid document of five pages, when the
    canvas made for page number 2 yields no context, [parsePDF] returns
    four records, with the indices 0, 2, 3, 4. *)
Lemma parsePDF_skips_page :
  valid_document (Sample.sample_pdfjs (fun i => negb (Nat.eqb i 2)))
    (arrayBuffer (Sample.file_of Sample.five_pages)) [x61; x62; x63; x64; x65] /\
  numPages (Sample.sample_pdfjs (fun i => negb (Nat.eqb i 2))) [x61; x62; x63; x64; x65] = 5%nat /\
  (exists data,
     parsePDF (Sample.sample_pdfjs (fun i => negb (Nat.eqb i 2)))
       (Sample.file_of Sample.five_pages) = inr data /\
     map index (pages data) = map num_of_nat [0; 2; 3; 4]%nat) /\
  ~ (exists data,
       parsePDF (Sample.sample_pdfjs (fun i => negb (Nat.eqb i 2)))
         (Sample.file_of Sample.five_pages) = inr data /\
       map index (pages data) = map num_of_nat (seq 0 5)).
Proof.
  split; [apply SampleFacts.sample_valid; reflexivity|].
  split; [reflexivity|]. split.
  - eexists. split; reflexivity.
  - intros (data & H & Hidx).
    apply (f_equal (@List.length _)) in Hidx. rewrite !length_map in Hidx.
    revert Hidx. injection H as <-. discriminate.
Qed.


(* ================================================================== *)
(** ** [extractPages] *)
(* ================================================================== *)

Module ExtractPagesFacts.

Import JsFacts.

Section Codec.

Variable C : PdfCodec.

Lemma copyPages_loop_valid (src : list (PageNode C)) (indices : list number) :
  Forall (valid_index (List.length src)) indices ->
  exists copied,
    PdfLib.copyPages_loop C src indices = inr copied /\
    Forall2 (copy_of C src) indices copied.
Proof.
  induction 1 as [|k indices Hk _ IH]; simpl.
  - exists []. split; [reflexivity|constructor].
  - destruct (array_get_valid src k Hk) as (q & Hq).
    destruct IH as (copied & E & F). rewrite Hq, E. simpl.
    exists (pdf_copy C q :: copied). split; [reflexivity|].
    constructor; [exists q; auto|assumption].
Qed.

Lemma copyPages_loop_undefined (src : list (PageNode C)) (indices : list number) (k : number) :
  In k indices -> array_get src k = None ->
  exists e, PdfLib.copyPages_loop C src indices = inl e.
Proof.
  intros Hin Hk. induction indices as [|j indices IH]; [contradiction|]. simpl.
  destruct (array_get src j) as [q|] eqn:Ej; [|eauto].
  destruct Hin as [->|Hin]; [congruence|].
  destruct (IH Hin) as (e & ->). simpl. eauto.
Qed.

(** [forEach(addPage)] appends the pages in the order of the array. *)
Lemma forEach_addPage (ps : list (PageNode C)) (doc : PdfLib.PDFDocument C) :
  PdfLib.getPages (fold_left (@PdfLib.addPage C) ps doc) = PdfLib.getPages doc ++ ps.
Proof.
  revert doc. induction ps as [|p ps IH]; intros doc; simpl.
  - now rewrite app_nil_r.
  - rewrite IH. simpl. now rewrite <- app_assoc.
Qed.

(** The document [extractPages] hands to [save]. *)
Lemma extractPages_valid (bytes : Uint8Array) (src : list (PageNode C)) (indices : list number) :
  pdf_parse C bytes = inr src ->
  Forall (valid_index (List.length src)) indices ->
  exists copied doc,
    extractPages C bytes indices = inr (PdfLib.save doc) /\
    PdfLib.getPages doc = copied /\
    Forall2 (copy_of C src) indices copied.
Proof.
  intros Hsrc Hidx.
  destruct (copyPages_loop_valid src indices Hidx) as (copied & E & F).
  unfold extractPages, PdfLib.load, PdfLib.copyPages. rewrite Hsrc. simpl.
  rewrite E. simpl.
  exists copied. eexists. split; [reflexivity|]. split; [|assumption].
  now rewrite forEach_addPage.
Qed.

Lemma extractPages_undefined (bytes : Uint8Array) (src : list (PageNode C))
  (indices : list number) (k : number) :
  pdf_parse C bytes = inr src ->
  In k indices -> array_get src k = None ->
  exists e, extractPages C bytes indices = inl e.
Proof.
  intros Hsrc Hin Hk.
  destruct (copyPages_loop_undefined src indices k Hin Hk) as (e & E).
  unfold extractPages, PdfLib.load, PdfLib.copyPages. rewrite Hsrc. simpl.
  rewrite E. simpl. eauto.
Qed.

(** [save] writes a document that has pages as it is. *)
Lemma save_pages (doc : PdfLib.PDFDocument C) :
  PdfLib.getPages doc <> [] ->
  PdfLib.save doc = pdf_serialize C (PdfLib.getPages doc).
Proof.
  destruct doc as [ps]. simpl. intros H.
  destruct ps; [contradiction|reflexivity].
Qed.

End Codec.

End ExtractPagesFacts.

(** C2, as the code has it.  For a valid source document and a
    non-empty, duplicate-free sequence of valid page indices,
    [extractPages] returns the bytes of a document whose pages are, one
    for one and in the order given, the copies of the source pages at
    those indices: nothing is sorted on the way. *)
Theorem extractPages_in_order (C : PdfCodec) (bytes : Uint8Array)
  (src : list (PageNode C)) (pageIndices : list number) :
  reads_back C ->
  pdf_parse C bytes = inr src ->
  pageIndices <> [] ->
  NoDup pageIndices ->
  Forall (valid_index (List.length src)) pageIndices ->
  exists out outPages,
    extractPages C bytes pageIndices = inr out /\
    PdfLib.load C out = inr {| PdfLib.getPages := outPages |} /\
    Forall2 (copy_of C src) pageIndices outPages.
Proof.
  intros Hrw Hsrc Hne _ Hidx.
  destruct (ExtractPagesFacts.extractPages_valid C bytes src pageIndices Hsrc Hidx)
    as (copied & doc & E & Hdoc & F).
  exists (PdfLib.save doc), copied. split; [exact E|]. split; [|exact F].
  rewrite ExtractPagesFacts.save_pages.
  - unfold PdfLib.load. rewrite Hrw. simpl. now rewrite Hdoc.
  - rewrite Hdoc. intros ->. inversion F. congruence.
Qed.

(** The theorem of C2 on the spec's example: the indices 2, 0, 1 of a
    document of five pages. *)
Lemma extractPages_in_order_witness :
  reads_back Sample.sample_codec /\
  pdf_parse Sample.sample_codec Sample.five_pages = inr [x61; x62; x63; x64; x65] /\
  map num_of_nat [2; 0; 1]%nat <> [] /\
  NoDup (map num_of_nat [2; 0; 1]%nat) /\
  Forall (valid_index 5) (map num_of_nat [2; 0; 1]%nat) /\
  exists out outPages,
    extractPages Sample.sample_codec Sample.five_pages (map num_of_nat [2; 0; 1]%nat) = inr out /\
    PdfLib.load Sample.sample_codec out = inr {| PdfLib.getPages := outPages |} /\
    Forall2 (copy_of Sample.sample_codec [x61; x62; x63; x64; x65])
      (map num_of_nat [2; 0; 1]%nat) outPages.
Proof.
  assert (Hnd : NoDup (map num_of_nat [2; 0; 1]%nat)).
  { apply SampleFacts.NoDup_num_of_nat.
    repeat constructor; simpl; intuition discriminate. }
  assert (Hv : Forall (valid_index 5) (map num_of_nat [2; 0; 1]%nat)).
  { repeat constructor; eexists; (split; [|reflexivity]); lia. }
  split; [exact SampleFacts.sample_reads_back|].
  split; [reflexivity|]. split; [discriminate|].
  split; [exact Hnd|]. split; [exact Hv|].
  apply (extractPages_in_order Sample.sample_codec Sample.five_pages
           [x61; x62; x63; x64; x65] (map num_of_nat [2; 0; 1]%nat)).
  - exact SampleFacts.sample_reads_back.
  - reflexivity.
  - discriminate.
  - exact Hnd.
  - exact Hv.
Defined.

(** The spec's example, run: page 0 of the output is the original page
    2, page 1 the original page 0, page 2 the original page 1. *)
Example extractPages_2_0_1 :
  extractPages Sample.sample_codec Sample.five_pages (map num_of_nat [2; 0; 1]%nat)
  = inr [x25; x63; x61; x62].
Proof. reflexivity. Qed.

(** C2 as stated fails at the empty sequence, which is a duplicate-free
    sequence of valid indices: the document returned for it does not
    have exactly those pages, that is none, but one blank page. *)
Lemma extractPages_empty_sequence :
  reads_back Sample.sample_codec /\
  pdf_parse Sample.sample_codec Sample.five_pages = inr [x61; x62; x63; x64; x65] /\
  NoDup (@nil number) /\
  Forall (valid_index 5) [] /\
  ~ (exists out outPages,
       extractPages Sample.sample_codec Sample.five_pages [] = inr out /\
       PdfLib.load Sample.sample_codec out = inr {| PdfLib.getPages := outPages |} /\
       Forall2 (copy_of Sample.sample_codec [x61; x62; x63; x64; x65]) [] outPages).
Proof.
  split; [exact SampleFacts.sample_reads_back|].
  split; [reflexivity|]. split; [constructor|]. split; [constructor|].
  intros (out & outPages & E & L & F).
  inversion F; subst. injection E as <-. discriminate L.
Qed.

(** C10, as the code has it.  For a valid source document,
    [extractPages] with the empty index sequence returns normally; no
    page of the source is copied, and the bytes returned are those of a
    valid document with exactly one page, the blank page that [save]
    adds to a document without pages. *)
Theorem extractPages_empty (C : PdfCodec) (bytes : Uint8Array) (src : list (PageNode C)) :
  reads_back C ->
  pdf_parse C bytes = inr src ->
  PdfLib.copyPages (PdfLib.create C) {| PdfLib.getPages := src |} [] = inr [] /\
  exists out,
    extractPages C bytes [] = inr out /\
    PdfLib.load C out = inr {| PdfLib.getPages := [pdf_blank C] |}.
Proof.
  intros Hrw Hsrc. split; [reflexivity|].
  unfold extractPages, PdfLib.load. rewrite Hsrc. simpl.
  eexists. split; [reflexivity|].
  unfold PdfLib.save. simpl. now rewrite Hrw.
Qed.

(** The theorem of C10 on a document of one page. *)
Lemma extractPages_empty_witness :
  reads_back Sample.sample_codec /\
  pdf_parse Sample.sample_codec Sample.one_page = inr [x61] /\
  PdfLib.copyPages (PdfLib.create Sample.sample_codec)
    {| PdfLib.getPages := [x61] : list (PageNode Sample.sample_codec) |} [] = inr [] /\
  exists out,
    extractPages Sample.sample_codec Sample.one_page [] = inr out /\
    PdfLib.load Sample.sample_codec out
    = inr {| PdfLib.getPages := [pdf_blank Sample.sample_codec] |}.
Proof.
  split; [exact SampleFacts.sample_reads_back|]. split; [reflexivity|].
  apply (extractPages_empty Sample.sample_codec Sample.one_page [x61]).
  - exact SampleFacts.sample_reads_back.
  - reflexivity.
Defined.

(** C10 as stated fails: the document returned for the empty sequence
    has one page, not zero. *)
Lemma extractPages_empty_one_page :
  (exists out doc,
     extractPages Sample.sample_codec Sample.one_page [] = inr out /\
     PdfLib.load Sample.sample_codec out = inr doc /\
     PdfLib.getPageCount doc = 1%nat) /\
  ~ (exists out doc,
       extractPages Sample.sample_codec Sample.one_page [] = inr out /\
       PdfLib.load Sample.sample_codec out = inr doc /\
       PdfLib.getPageCount doc = 0%nat).
Proof.
  split.
  - do 2 eexists. repeat split.
  - intros (out & doc & E & L & N).
    injection E as <-. injection L as <-. discriminate N.
Qed.


(* ================================================================== *)
(** ** The handlers of the component *)
(* ================================================================== *)

Module AppFacts.

Import JsFacts NumSet.

(** The indices that [handleDownload] passes to [extractPages]. *)
Lemma sortedIndices_In (s : NumSet.t) (k : number) :
  In k (array_sort (fun a b => num_sub a b) (to_array s)) <-> has s k = true.
Proof. rewrite array_sort_In. symmetry. apply has_In. Qed.

(** A failed extraction leaves everything but [status] and [error] as
    it was, and nothing is downloaded. *)
Lemma handleDownload_failed (E : Env) (st : App.State) (d : PDFData) (e : exn) :
  App.pdfData st = Some d ->
  App.selectedIndices st <> [] ->
  extractPages (codec E) (rawBytes d)
    (array_sort (fun a b => num_sub a b) (to_array (App.selectedIndices st))) = inl e ->
  App.handleDownload E st =
    ({| App.status := READY;
        App.pdfData := App.pdfData st;
        App.selectedIndices := App.selectedIndices st;
        App.aiQuery := App.aiQuery st;
        App.isAiLoading := App.isAiLoading st;
        App.error := Some "Failed to generate PDF." |}, None).
Proof.
  intros Hd Hne Hfail. unfold App.handleDownload. rewrite Hd.
  destruct st as [stat pd sel q ld err]. simpl in *. subst pd.
  destruct sel as [|x s]; [contradiction|].
  unfold size. simpl List.length. simpl Nat.eqb. cbv iota.
  unfold App.setStatus at 2. simpl App.selectedIndices.
  rewrite Hfail. reflexivity.
Qed.

(** An index that reads [undefined] in the source, once selected, makes
    the export fail. *)
Lemma handleDownload_undefined (E : Env) (st : App.State) (d : PDFData)
  (src : list (PageNode (codec E))) (k : number) :
  App.pdfData st = Some d ->
  pdf_parse (codec E) (rawBytes d) = inr src ->
  has (App.selectedIndices st) k = true ->
  array_get src k = None ->
  (exists e,
     extractPages (codec E) (rawBytes d)
       (array_sort (fun a b => num_sub a b) (to_array (App.selectedIndices st))) = inl e) /\
  App.handleDownload E st =
    ({| App.status := READY;
        App.pdfData := App.pdfData st;
        App.selectedIndices := App.selectedIndices st;
        App.aiQuery := App.aiQuery st;
        App.isAiLoading := App.isAiLoading st;
        App.error := Some "Failed to generate PDF." |}, None).
Proof.
  intros Hd Hsrc Hk Hundef.
  destruct (ExtractPagesFacts.extractPages_undefined (codec E) (rawBytes d) src
              (array_sort (fun a b => num_sub a b) (to_array (App.selectedIndices st))) k Hsrc)
    as (e & Hfail); [now apply sortedIndices_In|assumption|].
  split; [eauto|].
  apply (handleDownload_failed E st d e Hd); [|exact Hfail].
  intros Hnil. rewrite Hnil in Hk. discriminate.
Qed.

(** An extraction that succeeds is offered for download under the
    prefixed name. *)
Lemma handleDownload_done (E : Env) (st : App.State) (d : PDFData) (out : Uint8Array) :
  App.pdfData st = Some d ->
  App.selectedIndices st <> [] ->
  extractPages (codec E) (rawBytes d)
    (array_sort (fun a b => num_sub a b) (to_array (App.selectedIndices st))) = inr out ->
  App.handleDownload E st =
    ({| App.status := READY;
        App.pdfData := App.pdfData st;
        App.selectedIndices := App.selectedIndices st;
        App.aiQuery := App.aiQuery st;
        App.isAiLoading := App.isAiLoading st;
        App.error := App.error st |},
     Some {| App.download := ("extracted_" ++ name d)%string; App.blob := out |}).
Proof.
  intros Hd Hne Hout. unfold App.handleDownload. rewrite Hd.
  destruct st as [stat pd sel q ld err]. simpl in *. subst pd.
  destruct sel as [|x s]; [contradiction|].
  unfold size. simpl List.length. simpl Nat.eqb. cbv iota.
  unfold App.setStatus at 2. simpl App.selectedIndices.
  rewrite Hout. reflexivity.
Qed.

(** No export, failed or not, changes the selection or the document. *)
Lemma handleDownload_selection (E : Env) (st : App.State) :
  App.selectedIndices (fst (App.handleDownload E st)) = App.selectedIndices st /\
  App.pdfData (fst (App.handleDownload E st)) = App.pdfData st.
Proof.
  destruct (App.pdfData st) as [d|] eqn:Hd.
  - destruct (App.selectedIndices st) as [|x s] eqn:Hs.
    + unfold App.handleDownload. rewrite Hd, Hs. simpl. now rewrite Hd, Hs.
    + destruct (extractPages (codec E) (rawBytes d)
                  (array_sort (fun a b => num_sub a b) (to_array (App.selectedIndices st))))
        as [e|out] eqn:Hx.
      * rewrite (handleDownload_failed E st d e Hd); [|congruence|exact Hx].
        simpl. now rewrite Hd, Hs.
      * rewrite (handleDownload_done E st d out Hd); [|congruence|exact Hx].
        simpl. now rewrite Hd, Hs.
  - unfold App.handleDownload. rewrite Hd. simpl. now rewrite Hd.
Qed.

End AppFacts.



(** An export that succeeds: on a document of three pages with the
    indices 2 and 0 selected in that order, the file offered has two
    pages, the original pages 0 and 2 in that order, and the selection
    is still there. *)
Example export_0_2 :
  App.handleDownload (Sample.sample_env None)
    (Sample.loaded Sample.three_pages (map Sample.page_record (seq 0 3))
       (map num_of_nat [2; 0]%nat))
  = (Sample.loaded Sample.three_pages (map Sample.page_record (seq 0 3))
       (map num_of_nat [2; 0]%nat),
     Some {| App.download := "extracted_sample.pdf"; App.blob := [x25; x61; x63] |}).
Proof. reflexivity. Qed.


(* ================================================================== *)
(** ** Selection *)
(* ================================================================== *)

Module SelectionFacts.

Import JsFacts NumSet.

(** One toggle flips the membership of its index and of no other. *)
Lemma has_toggle (st : App.State) (i j : number) :
  has (App.selectedIndices (App.togglePageSelection i st)) j
  = xorb (has (App.selectedIndices st) j) (num_eqb j i).
Proof.
  unfold App.togglePageSelection, to_array. simpl.
  destruct (has (of_iterable (App.selectedIndices st)) i) eqn:Ei.
  - rewrite has_delete, has_of_iterable. fold (has (App.selectedIndices st) j).
    destruct (num_eqb j i) eqn:Eji; simpl.
    + now rewrite andb_false_r, xorb_true_r; apply num_eqb_eq in Eji; subst;
        rewrite has_of_iterable in Ei; unfold has; rewrite Ei.
    + now rewrite andb_true_r, xorb_false_r.
  - rewrite has_add, has_of_iterable. fold (has (App.selectedIndices st) j).
    destruct (num_eqb j i) eqn:Eji; simpl.
    + apply num_eqb_eq in Eji. subst. rewrite has_of_iterable in Ei.
      unfold has. now rewrite Ei.
    + now rewrite orb_false_r, xorb_false_r.
Qed.

(** Selecting all the pages of a document whose indices are distinct
    selects as many members as there are pages. *)
Lemma select_all_size (pgs : list PDFPagePreview) :
  NoDup (map index pgs) ->
  size (of_iterable (map index pgs)) = List.length pgs.
Proof.
  intros H. rewrite of_iterable_NoDup by assumption. unfold size. apply length_map.
Qed.

End SelectionFacts.

(** C6.  Two toggles of the same index in a row leave every index, that
    one and the others, a member exactly when it was one before; one
    toggle flips the membership of its index ([xorb] with [true]) and
    keeps that of every other index ([xorb] with [false]). *)
Theorem toggle_twice (st : App.State) (i : number) :
  (forall j,
     NumSet.has (App.selectedIndices (App.togglePageSelection i (App.togglePageSelection i st))) j
     = NumSet.has (App.selectedIndices st) j) /\
  (forall j,
     NumSet.has (App.selectedIndices (App.togglePageSelection i st)) j
     = xorb (NumSet.has (App.selectedIndices st) j) (num_eqb j i)).
Proof.
  split.
  - intros j. rewrite !SelectionFacts.has_toggle.
    now destruct (NumSet.has (App.selectedIndices st) j), (num_eqb j i).
  - intros j. apply SelectionFacts.has_toggle.
Qed.

(** C7, as the code has it.  On a loaded document of N pages with
    distinct indices: from a selection that does not have N members,
    the first call of the select-all control selects the indices of
    all the pages and the second empties the selection; from a
    selection of N members, the first call empties the selection and
    the second selects the indices of all the pages again.  So two
    calls in a row leave the selection empty exactly when the starting
    selection does not have N members, or N is 0. *)
Theorem handleSelectAll_twice (st : App.State) (d : PDFData) :
  App.pdfData st = Some d ->
  NoDup (map index (pages d)) ->
  (NumSet.size (App.selectedIndices st) <> List.length (pages d) ->
   App.selectedIndices (App.handleSelectAll st) = map index (pages d) /\
   App.selectedIndices (App.handleSelectAll (App.handleSelectAll st)) = NumSet.empty) /\
  (NumSet.size (App.selectedIndices st) = List.length (pages d) ->
   App.selectedIndices (App.handleSelectAll st) = NumSet.empty /\
   App.selectedIndices (App.handleSelectAll (App.handleSelectAll st))
   = map index (pages d)) /\
  (App.selectedIndices (App.handleSelectAll (App.handleSelectAll st)) = NumSet.empty
   <-> (NumSet.size (App.selectedIndices st) <> List.length (pages d)
        \/ List.length (pages d) = 0%nat)).
Proof.
  intros Hd Hnd.
  (* the state after a call that selects all, and after one that clears *)
  assert (Hall : forall s,
             App.pdfData s = Some d ->
             NumSet.size (App.selectedIndices s) <> List.length (pages d) ->
             App.pdfData (App.handleSelectAll s) = Some d /\
             App.selectedIndices (App.handleSelectAll s) = map index (pages d)).
  { intros s Hs Hsize. unfold App.handleSelectAll. rewrite Hs.
    apply Nat.eqb_neq in Hsize. rewrite Hsize. simpl.
    split; [exact Hs|]. now apply JsFacts.of_iterable_NoDup. }
  assert (Hclear : forall s,
             App.pdfData s = Some d ->
             NumSet.size (App.selectedIndices s) = List.length (pages d) ->
             App.pdfData (App.handleSelectAll s) = Some d /\
             App.selectedIndices (App.handleSelectAll s) = NumSet.empty).
  { intros s Hs Hsize. unfold App.handleSelectAll. rewrite Hs.
    apply Nat.eqb_eq in Hsize. rewrite Hsize. simpl. split; [exact Hs|reflexivity]. }
  assert (Hfull : NumSet.size (map index (pages d)) = List.length (pages d))
    by (unfold NumSet.size; apply length_map).
  assert (Hdiff : NumSet.size (App.selectedIndices st) <> List.length (pages d) ->
                  App.selectedIndices (App.handleSelectAll st) = map index (pages d) /\
                  App.selectedIndices (App.handleSelectAll (App.handleSelectAll st))
                  = NumSet.empty).
  { intros Hsize. destruct (Hall st Hd Hsize) as [Hd1 Hs1]. split; [exact Hs1|].
    apply (Hclear (App.handleSelectAll st) Hd1). now rewrite Hs1. }
  assert (Hsame : NumSet.size (App.selectedIndices st) = List.length (pages d) ->
                  App.selectedIndices (App.handleSelectAll st) = NumSet.empty /\
                  App.selectedIndices (App.handleSelectAll (App.handleSelectAll st))
                  = map index (pages d)).
  { intros Hsize. destruct (Hclear st Hd Hsize) as [Hd1 Hs1]. split; [exact Hs1|].
    destruct (Nat.eq_dec (List.length (pages d)) 0) as [Hz|Hnz].
    - (* no page: the second call clears too, and there is no index *)
      destruct (Hclear (App.handleSelectAll st) Hd1) as [_ Hs2];
        [rewrite Hs1; now rewrite Hz|].
      rewrite Hs2. apply length_zero_iff_nil in Hz. now rewrite Hz.
    - apply (Hall (App.handleSelectAll st) Hd1). rewrite Hs1. simpl. congruence. }
  split; [exact Hdiff|]. split; [exact Hsame|].
  split.
  - intros Hempty.
    destruct (Nat.eq_dec (NumSet.size (App.selectedIndices st)) (List.length (pages d)))
      as [Hsize|Hsize]; [|now left].
    right. destruct (Hsame Hsize) as [_ Hs2]. rewrite Hs2 in Hempty.
    rewrite <- (length_map index). now rewrite Hempty.
  - intros [Hsize|Hz].
    + exact (proj2 (Hdiff Hsize)).
    + destruct (Nat.eq_dec (NumSet.size (App.selectedIndices st)) (List.length (pages d)))
        as [Hsize|Hsize]; [|exact (proj2 (Hdiff Hsize))].
      destruct (Hsame Hsize) as [_ Hs2]. rewrite Hs2.
      apply length_zero_iff_nil in Hz. now rewrite Hz.
Qed.

(** The theorem of C7 on five pages, from a selection of two. *)
Lemma handleSelectAll_twice_witness :
  NoDup (map index (map Sample.page_record (seq 0 5))) /\
  NumSet.size (map num_of_nat [3; 1]%nat) <> 5%nat /\
  App.selectedIndices
    (App.handleSelectAll
       (Sample.loaded Sample.five_pages (map Sample.page_record (seq 0 5))
          (map num_of_nat [3; 1]%nat)))
  = map index (map Sample.page_record (seq 0 5)) /\
  App.selectedIndices
    (App.handleSelectAll
       (App.handleSelectAll
          (Sample.loaded Sample.five_pages (map Sample.page_record (seq 0 5))
             (map num_of_nat [3; 1]%nat))))
  = NumSet.empty.
Proof.
  assert (Hnd : NoDup (map index (map Sample.page_record (seq 0 5)))).
  { apply (SampleFacts.NoDup_num_of_nat (seq 0 5)). apply seq_NoDup. }
  assert (Hsize : NumSet.size (map num_of_nat [3; 1]%nat) <> 5%nat) by discriminate.
  split; [exact Hnd|]. split; [exact Hsize|].
  destruct (handleSelectAll_twice
              (Sample.loaded Sample.five_pages (map Sample.page_record (seq 0 5))
                 (map num_of_nat [3; 1]%nat))
              {| name := "sample.pdf"; size := num_of_nat 6;
                 pages := map Sample.page_record (seq 0 5);
                 rawBytes := Sample.five_pages |}
              eq_refl Hnd) as (Hdiff & _ & _).
  exact (Hdiff Hsize).
Defined.

(** C7 as stated fails: on a document of one page with that page
    selected, the first call clears the selection and the second
    selects the page again. *)
Lemma handleSelectAll_twice_from_all :
  App.selectedIndices
    (App.handleSelectAll
       (Sample.loaded Sample.one_page [Sample.page_record 0] [num_of_nat 0]))
  = NumSet.empty /\
  App.selectedIndices
    (App.handleSelectAll
       (App.handleSelectAll
          (Sample.loaded Sample.one_page [Sample.page_record 0] [num_of_nat 0])))
  = [num_of_nat 0] /\
  App.selectedIndices
    (App.handleSelectAll
       (App.handleSelectAll
          (Sample.loaded Sample.one_page [Sample.page_record 0] [num_of_nat 0])))
  <> NumSet.empty.
Proof.
  split; [reflexivity|]. split; [reflexivity|]. discriminate.
Qed.


(* ================================================================== *)
(** ** [suggestPagesByQuery] *)
(* ================================================================== *)

Module SuggestFacts.

Import JsFacts.

(** Text that parses is not the empty string. *)
Lemma parse_not_falsy (t : string) (v : JSON.value) :
  JSON.parse t = inr v -> str_falsy t = false.
Proof.
  destruct t; [|reflexivity]. vm_compute. discriminate.
Qed.

Lemma is_number_JNumber (item : JSON.value) : is_number item = is_JNumber item.
Proof. now destruct item. Qed.

(** What the filter keeps: the numbers among the items, in their order. *)
Lemma filter_numbers_spec (items : list JSON.value) :
  map JSON.JNumber (filter_numbers items) = filter is_JNumber items.
Proof.
  unfold filter_numbers. induction items as [|item items IH]; simpl; [reflexivity|].
  rewrite is_number_JNumber.
  destruct item; simpl; try exact IH. now rewrite IH.
Qed.

Lemma filter_numbers_all (ns : list number) :
  filter_numbers (map JSON.JNumber ns) = ns.
Proof.
  unfold filter_numbers. induction ns as [|n ns IH]; simpl; [reflexivity|].
  now rewrite IH.
Qed.

Section Service.

Variable G : GenAI.
Variable query : string.
Variable pages : list PDFPagePreview.
Variable response : GenerateContentResponse.
Hypothesis answered : generateContent G (request G query pages) = inr response.

Lemma suggest_array (body : string) (items : list JSON.value) :
  text response = Some body ->
  JSON.parse body = inr (JSON.JArray items) ->
  suggestPagesByQuery G query pages = inr (filter_numbers items).
Proof.
  intros Hb Hp. unfold suggestPagesByQuery. rewrite answered. simpl. rewrite Hb.
  rewrite (parse_not_falsy body _ Hp), Hp. reflexivity.
Qed.

End Service.

(** The call to the service is awaited outside the [try] block: when
    it is rejected, so is [suggestPagesByQuery]. *)
Lemma suggest_rejected (G : GenAI) (query : string) (pages : list PDFPagePreview) (e : exn) :
  generateContent G (request G query pages) = inl e ->
  suggestPagesByQuery G query pages = inl e.
Proof.
  intros H. unfold suggestPagesByQuery. now rewrite H.
Qed.




End SuggestFacts.

(** C4.  When the service answers and the body of the response is
    missing, does not parse as JSON, or parses to a value that is not
    an array, [suggestPagesByQuery] returns normally, with the empty
    list. *)
Theorem suggestPagesByQuery_no_array (G : GenAI) (query : string)
  (pages : list PDFPagePreview) (response : GenerateContentResponse) :
  generateContent G (request G query pages) = inr response ->
  no_array (text response) ->
  suggestPagesByQuery G query pages = inr [].
Proof.
  intros Hanswer Hbody. unfold suggestPagesByQuery. rewrite Hanswer. simpl.
  destruct (text response) as [t|]; [|reflexivity].
  destruct (str_falsy t); [reflexivity|].
  simpl in Hbody. destruct (JSON.parse t) as [e|parsed].
  - (* the parse throws: the catch block returns the empty list *)
    reflexivity.
  - (* the parse returns: anything but an array gives the empty list *)
    simpl. destruct parsed; try reflexivity. discriminate Hbody.
Qed.

(** The theorem of C4 on a body that parses to an object. *)
Lemma suggestPagesByQuery_no_array_witness :
  generateContent (Sample.sample_genai (Some "{}"))
    (request (Sample.sample_genai (Some "{}")) "invoices" [Sample.page_record 0])
  = inr {| text := Some "{}" |} /\
  no_array (Some "{}") /\
  suggestPagesByQuery (Sample.sample_genai (Some "{}")) "invoices" [Sample.page_record 0]
  = inr [].
Proof.
  split; [reflexivity|]. split; [vm_compute; reflexivity|].
  apply (suggestPagesByQuery_no_array (Sample.sample_genai (Some "{}")) "invoices"
           [Sample.page_record 0] {| text := Some "{}" |}).
  - reflexivity.
  - vm_compute. reflexivity.
Defined.

(** C5, as the code has it.  When the body of the response parses to a
    JSON array, [suggestPagesByQuery] returns the elements that are
    numbers, integers or not, in their order, and drops the others; for
    the body [[1, 2, "x", 4]] it returns exactly 1, 2, 4. *)
Theorem suggestPagesByQuery_numbers (G : GenAI) (query : string)
  (pages : list PDFPagePreview) (response : GenerateContentResponse) (body : string) :
  generateContent G (request G query pages) = inr response ->
  text response = Some body ->
  (forall items,
     JSON.parse body = inr (JSON.JArray items) ->
     exists kept,
       suggestPagesByQuery G query pages = inr kept /\
       map JSON.JNumber kept = filter is_JNumber items) /\
  (body = Sample.mixed_body ->
   suggestPagesByQuery G query pages = inr [num_of_Z 1; num_of_Z 2; num_of_Z 4]).
Proof.
  intros Hg Hb. split.
  - intros items Hp. exists (filter_numbers items). split.
    + exact (SuggestFacts.suggest_array G query pages response Hg body items Hb Hp).
    + apply SuggestFacts.filter_numbers_spec.
  - intros ->.
    rewrite (SuggestFacts.suggest_array G query pages response Hg Sample.mixed_body
               [JSON.JNumber (num_of_Z 1); JSON.JNumber (num_of_Z 2);
                JSON.JString [120%N]; JSON.JNumber (num_of_Z 4)] Hb);
      reflexivity.
Qed.

(** The theorem of C5 on the spec's example. *)
Lemma suggestPagesByQuery_numbers_witness :
  generateContent (Sample.sample_genai (Some Sample.mixed_body))
    (request (Sample.sample_genai (Some Sample.mixed_body)) "invoices" [Sample.page_record 0])
  = inr {| text := Some Sample.mixed_body |} /\
  JSON.parse Sample.mixed_body
  = inr (JSON.JArray [JSON.JNumber (num_of_Z 1); JSON.JNumber (num_of_Z 2);
                      JSON.JString [120%N]; JSON.JNumber (num_of_Z 4)]) /\
  suggestPagesByQuery (Sample.sample_genai (Some Sample.mixed_body)) "invoices"
    [Sample.page_record 0]
  = inr [num_of_Z 1; num_of_Z 2; num_of_Z 4].
Proof.
  split; [reflexivity|]. split; [reflexivity|].
  apply (suggestPagesByQuery_numbers (Sample.sample_genai (Some Sample.mixed_body))
           "invoices" [Sample.page_record 0] {| text := Some Sample.mixed_body |}
           Sample.mixed_body eq_refl eq_refl).
  reflexivity.
Defined.

(** C5 as stated fails: 2.5 is an element that is not an integer, and it
    is returned. *)
Lemma suggestPagesByQuery_keeps_fraction :
  JSON.parse "[1, 2.5]"
  = inr (JSON.JArray [JSON.JNumber (num_of_Z 1); JSON.JNumber (Q2Qc 2.5)]) /\
  isInteger (Q2Qc 2.5) = false /\
  suggestPagesByQuery (Sample.sample_genai (Some "[1, 2.5]")) "invoices"
    [Sample.page_record 0]
  = inr [num_of_Z 1; Q2Qc 2.5] /\
  suggestPagesByQuery (Sample.sample_genai (Some "[1, 2.5]")) "invoices"
    [Sample.page_record 0]
  <> inr [num_of_Z 1].
Proof.
  split; [reflexivity|]. split; [reflexivity|]. split; [reflexivity|].
  discriminate.
Qed.


Module SearchFacts.

Import JsFacts NumSet.

(** A search that gets suggestions installs them as the selection and
    touches neither the document nor the error message. *)
Lemma handleAiSearch_suggested (E : Env) (st : App.State) (d : PDFData)
  (suggested : list number) :
  App.pdfData st = Some d ->
  str_falsy (trim (App.aiQuery st)) = false ->
  App.isAiLoading st = false ->
  suggestPagesByQuery (genai E) (App.aiQuery st) (pages d) = inr suggested ->
  App.handleAiSearch E st =
    {| App.status := App.status st;
       App.pdfData := App.pdfData st;
       App.selectedIndices := of_iterable suggested;
       App.aiQuery := App.aiQuery st;
       App.isAiLoading := false;
       App.error := App.error st |}.
Proof.
  destruct st as [stat pd sel q ld err]. simpl. intros -> Hq -> Hs.
  unfold App.handleAiSearch. simpl. rewrite Hq. simpl. rewrite Hs. reflexivity.
Qed.

End SearchFacts.

(** C8.  When a search is run and the service returns a list of
    integers, the new selection has exactly these integers as members,
    whatever the page count, and the search sets no error; if one of
    them is out of range for the document, the export that follows
    fails with the error message and downloads nothing. *)
Theorem handleAiSearch_unchecked (E : Env) (st : App.State) (d : PDFData)
  (response : GenerateContentResponse) (body : string) (zs : list Z) :
  App.pdfData st = Some d ->
  str_falsy (trim (App.aiQuery st)) = false ->
  App.isAiLoading st = false ->
  generateContent (genai E) (request (genai E) (App.aiQuery st) (pages d)) = inr response ->
  text response = Some body ->
  JSON.parse body = inr (JSON.JArray (map (fun z => JSON.JNumber (num_of_Z z)) zs)) ->
  (forall k, NumSet.has (App.selectedIndices (App.handleAiSearch E st)) k = true
             <-> In k (map num_of_Z zs)) /\
  App.error (App.handleAiSearch E st) = App.error st /\
  (forall (src : list (PageNode (codec E))) (z : Z),
     pdf_parse (codec E) (rawBytes d) = inr src ->
     In z zs ->
     (z < 0 \/ Z.of_nat (List.length src) <= z)%Z ->
     App.error (fst (App.handleDownload E (App.handleAiSearch E st)))
     = Some "Failed to generate PDF." /\
     snd (App.handleDownload E (App.handleAiSearch E st)) = None).
Proof.
  intros Hd Hq Hl Hg Hb Hp.
  assert (Hs : suggestPagesByQuery (genai E) (App.aiQuery st) (pages d)
               = inr (map num_of_Z zs)).
  { rewrite (SuggestFacts.suggest_array (genai E) (App.aiQuery st) (pages d) response
               Hg body _ Hb Hp).
    rewrite <- (map_map num_of_Z JSON.JNumber).
    now rewrite SuggestFacts.filter_numbers_all. }
  rewrite (SearchFacts.handleAiSearch_suggested E st d (map num_of_Z zs) Hd Hq Hl Hs).
  split; [|split].
  - intros k. simpl. apply JsFacts.of_iterable_In.
  - reflexivity.
  - intros src z Hsrc Hz Hout.
    destruct (AppFacts.handleDownload_undefined E
                {| App.status := App.status st;
                   App.pdfData := App.pdfData st;
                   App.selectedIndices := NumSet.of_iterable (map num_of_Z zs);
                   App.aiQuery := App.aiQuery st;
                   App.isAiLoading := false;
                   App.error := App.error st |}
                d src (num_of_Z z)) as [_ ->].
    + exact Hd.
    + exact Hsrc.
    + apply JsFacts.of_iterable_In. now apply in_map.
    + now apply JsFacts.array_get_out_of_range.
    + split; reflexivity.
Qed.

(** The theorem of C8 on a document of five pages, the service
    suggesting the indices 7 and 1. *)
Lemma handleAiSearch_unchecked_witness :
  str_falsy (trim "invoices") = false /\
  JSON.parse "[7, 1]"
  = inr (JSON.JArray (map (fun z => JSON.JNumber (num_of_Z z)) [7; 1]%Z)) /\
  (forall k,
     NumSet.has
       (App.selectedIndices
          (App.handleAiSearch (Sample.sample_env (Some "[7, 1]"))
             (Sample.loaded Sample.five_pages (map Sample.page_record (seq 0 5))
                [num_of_nat 0]))) k = true
     <-> In k (map num_of_Z [7; 1]%Z)) /\
  App.error
    (fst (App.handleDownload (Sample.sample_env (Some "[7, 1]"))
            (App.handleAiSearch (Sample.sample_env (Some "[7, 1]"))
               (Sample.loaded Sample.five_pages (map Sample.page_record (seq 0 5))
                  [num_of_nat 0]))))
  = Some "Failed to generate PDF.".
Proof.
  split; [reflexivity|]. split; [reflexivity|].
  destruct (handleAiSearch_unchecked (Sample.sample_env (Some "[7, 1]"))
              (Sample.loaded Sample.five_pages (map Sample.page_record (seq 0 5))
                 [num_of_nat 0])
              {| name := "sample.pdf"; size := num_of_nat 6;
                 pages := map Sample.page_record (seq 0 5);
                 rawBytes := Sample.five_pages |}
              {| text := Some "[7, 1]" |} "[7, 1]" [7; 1]%Z
              eq_refl eq_refl eq_refl eq_refl eq_refl eq_refl)
    as (Hmem & _ & Hexport).
  split; [exact Hmem|].
  destruct (Hexport [x61; x62; x63; x64; x65] 7%Z eq_refl) as [Herr _].
  - now left.
  - simpl. lia.
  - exact Herr.
Defined.


(* ================================================================== *)
(** ** [parsePDF]: when it returns, and what *)
(* ================================================================== *)

Module ParsePDFMore.

Section Loop.

Variable P : PdfJs.
Variable pdf : PDFDocumentProxy P.

Lemma page_fails_dec (i : nat) : {page_fails P pdf i} + {~ page_fails P pdf i}.
Proof.
  unfold page_fails. destruct (getPage P pdf i) as [e|page]; [left; exact I|].
  destruct (getContext P i) as [ctx|]; [|right; intros []].
  destruct (render P page ctx _) as [e|u]; [left; exact I|].
  destruct (getTextContent P page) as [e|items]; [left; exact I|right; intros []].
Qed.

(** An iteration on a page that fails throws, whatever was read before. *)
Lemma parsePDF_body_fails (i : nat) (pages : list PDFPagePreview) :
  page_fails P pdf i -> exists e, parsePDF_body P pdf i pages = inl e.
Proof.
  unfold page_fails, parsePDF_body.
  destruct (getPage P pdf i) as [e|page]; simpl; [eauto|].
  destruct (getContext P i) as [ctx|]; [|intros []].
  destruct (render P page ctx _) as [e|u]; simpl; [eauto|].
  destruct (getTextContent P page) as [e|items]; simpl; [eauto|intros []].
Qed.

(** An iteration on a page that does not fail appends the record of the
    page, or nothing when the canvas yields no context. *)
Lemma parsePDF_body_returns (i : nat) (pages : list PDFPagePreview) :
  ~ page_fails P pdf i ->
  exists recs,
    parsePDF_body P pdf i pages = inr (pages ++ recs) /\
    Forall2 (record_of_page P pdf) (if has_context P i then [i] else []) recs.
Proof.
  unfold page_fails, parsePDF_body, has_context, record_of_page.
  destruct (getPage P pdf i) as [e|page] eqn:Hpage; simpl; [intros H; now destruct H|].
  destruct (getContext P i) as [ctx|].
  - destruct (render P page ctx _) as [e|u]; simpl; [intros H; now destruct H|].
    destruct (getTextContent P page) as [e|items] eqn:Hitems; simpl;
      [intros H; now destruct H|].
    intros _. eexists. split; [reflexivity|].
    constructor; [|constructor]. exists page, items. auto.
  - intros _. exists []. rewrite app_nil_r. split; [reflexivity|constructor].
Qed.

Lemma parsePDF_loop_fails (remaining : nat) :
  forall (i : nat) (pages : list PDFPagePreview) (j : nat),
    (i <= j < i + remaining)%nat -> page_fails P pdf j ->
    exists e, parsePDF_loop P pdf remaining i pages = inl e.
Proof.
  induction remaining as [|r IH]; intros i pages j Hj Hfail; [lia|]. simpl.
  destruct (parsePDF_body P pdf i pages) as [e|pages'] eqn:Hbody; simpl; [eauto|].
  destruct (Nat.eq_dec j i) as [->|Hne].
  - destruct (parsePDF_body_fails i pages Hfail) as (e & He). congruence.
  - apply (IH (S i) pages' j); [lia|assumption].
Qed.

Lemma parsePDF_loop_returns (remaining : nat) :
  forall (i : nat) (pages : list PDFPagePreview),
    (forall j, (i <= j < i + remaining)%nat -> ~ page_fails P pdf j) ->
    exists recs,
      parsePDF_loop P pdf remaining i pages = inr (pages ++ recs) /\
      Forall2 (record_of_page P pdf) (filter (has_context P) (seq i remaining)) recs.
Proof.
  induction remaining as [|r IH]; intros i pages Hall; simpl.
  - exists []. rewrite app_nil_r. split; [reflexivity|constructor].
  - destruct (parsePDF_body_returns i pages) as (recs1 & E1 & F1); [apply Hall; lia|].
    rewrite E1. simpl.
    destruct (IH (S i) (pages ++ recs1)) as (recs2 & E2 & F2);
      [intros j Hj; apply Hall; lia|].
    exists (recs1 ++ recs2). split; [now rewrite E2, app_assoc|].
    destruct (has_context P i); simpl.
    + inversion F1 as [|? r1 ? l' Hr1 Hnil]; subst. inversion Hnil; subst.
      simpl. now constructor.
    + inversion F1; subst. exact F2.
Qed.

(** The loop returns exactly when no page of its range fails. *)
Lemma parsePDF_loop_returns_iff (remaining i : nat) (pages : list PDFPagePreview) :
  (exists pages', parsePDF_loop P pdf remaining i pages = inr pages') <->
  (forall j, (i <= j < i + remaining)%nat -> ~ page_fails P pdf j).
Proof.
  split.
  - intros (pages' & H) j Hj Hfail.
    destruct (parsePDF_loop_fails remaining i pages j Hj Hfail) as (e & He). congruence.
  - intros Hall. destruct (parsePDF_loop_returns remaining i pages Hall) as (recs & E & _).
    eauto.
Qed.

End Loop.

(** A load that returns has opened the document and met no page that
    fails. *)
Lemma parsePDF_no_page_fails (P : PdfJs) (file : File) (data : PDFData) :
  parsePDF P file = inr data ->
  exists pdf,
    getDocument P (arrayBuffer file) = inr pdf /\
    forall i, (1 <= i <= numPages P pdf)%nat -> ~ page_fails P pdf i.
Proof.
  unfold parsePDF. intros H.
  destruct (getDocument P (arrayBuffer file)) as [e|pdf]; [discriminate|].
  exists pdf. split; [reflexivity|]. simpl in H.
  intros i Hi.
  apply (proj1 (parsePDF_loop_returns_iff P pdf (numPages P pdf) 1 [])); [|lia].
  destruct (parsePDF_loop P pdf (numPages P pdf) 1 []) as [e|pages']; [discriminate|eauto].
Qed.

End ParsePDFMore.

(** [parsePDF] returns exactly when the document opens and none of its
    pages fails: one page that cannot be fetched, painted or read makes
    the whole load throw, and a page whose canvas yields no context
    never does, as it is neither painted nor read. *)
Theorem parsePDF_returns_iff (P : PdfJs) (file : File) :
  (exists data, parsePDF P file = inr data) <->
  (exists pdf,
     getDocument P (arrayBuffer file) = inr pdf /\
     forall i, (1 <= i <= numPages P pdf)%nat -> ~ page_fails P pdf i).
Proof.
  split.
  - intros (data & H). exact (ParsePDFMore.parsePDF_no_page_fails P file data H).
  - intros (pdf & Hdoc & Hall). unfold parsePDF. rewrite Hdoc. simpl.
    destruct (ParsePDFMore.parsePDF_loop_returns P pdf (numPages P pdf) 1 [])
      as (recs & E & _); [intros j Hj; apply Hall; lia|].
    rewrite E. simpl. eauto.
Qed.

(** Whenever [parsePDF] returns, what it returns is the name and the
    size of the file, as [rawBytes] the array that was given to
    [getDocument], which that call has left detached and empty, and for
    the page numbers whose canvas yields a context, in their order, the
    record of the page: index, picture at half scale, and text items
    joined by single spaces. *)
Theorem parsePDF_records (P : PdfJs) (file : File) (data : PDFData) :
  parsePDF P file = inr data ->
  exists pdf,
    getDocument P (arrayBuffer file) = inr pdf /\
    name data = file_name file /\
    size data = file_size file /\
    rawBytes data = [] /\
    Forall2 (record_of_page P pdf)
      (filter (has_context P) (seq 1 (numPages P pdf))) (pages data).
Proof.
  intros H.
  destruct (ParsePDFMore.parsePDF_no_page_fails P file data H) as (pdf & Hdoc & Hall).
  exists pdf. split; [exact Hdoc|].
  destruct (ParsePDFMore.parsePDF_loop_returns P pdf (numPages P pdf) 1 [])
    as (recs & E & F); [intros j Hj; apply Hall; lia|].
  unfold parsePDF in H. rewrite Hdoc in H. simpl in H. rewrite E in H. simpl in H.
  injection H as <-. simpl. repeat split. exact F.
Qed.

(** The theorem on a document whose second page has unreadable text:
    the load throws. *)
Lemma parsePDF_returns_iff_witness :
  page_fails Sample.fragile_pdfjs [x61; x00; x63] 2 /\
  ~ (exists data,
       parsePDF Sample.fragile_pdfjs (Sample.file_of Sample.damaged_pages) = inr data).
Proof.
  split; [exact I|].
  intros H.
  apply (proj1 (parsePDF_returns_iff Sample.fragile_pdfjs
                  (Sample.file_of Sample.damaged_pages))) in H.
  destruct H as (pdf & Hdoc & Hall). injection Hdoc as <-.
  apply (Hall 2%nat); [simpl; lia|exact I].
Defined.

(** The theorem on five pages of which the second has no context. *)
Lemma parsePDF_records_witness :
  exists data pdf,
    parsePDF (Sample.sample_pdfjs (fun i => negb (Nat.eqb i 2)))
      (Sample.file_of Sample.five_pages) = inr data /\
    name data = "sample.pdf" /\
    rawBytes data = [] /\
    Forall2 (record_of_page (Sample.sample_pdfjs (fun i => negb (Nat.eqb i 2))) pdf)
      [1; 3; 4; 5]%nat (pages data).
Proof.
  eexists.
  destruct (parsePDF_records (Sample.sample_pdfjs (fun i => negb (Nat.eqb i 2)))
              (Sample.file_of Sample.five_pages) _ eq_refl)
    as (pdf & Hdoc & Hname & _ & Hraw & Hrec).
  exists pdf. injection Hdoc as <-.
  split; [reflexivity|]. split; [exact Hname|]. split; [exact Hraw|exact Hrec].
Defined.


(* ================================================================== *)
(** ** [extractPages]: when it returns *)
(* ================================================================== *)

Module ExtractPagesMore.

Import JsFacts.

(** Only a valid index reads an element. *)
Lemma array_get_Some_valid {A} (arr : list A) (k : number) (x : A) :
  array_get arr k = Some x -> valid_index (List.length arr) k.
Proof.
  unfold array_get, isInteger.
  destruct (Pos.eqb (Qden k) 1) eqn:Eden; [|discriminate].
  destruct (0 <=? Qnum k)%Z eqn:Enum; [|discriminate]. simpl.
  intros H. apply Pos.eqb_eq in Eden. apply Z.leb_le in Enum.
  exists (Z.to_nat (Qnum k)). split.
  - apply nth_error_Some. congruence.
  - apply Qc_is_canon. unfold num_of_nat. rewrite this_num_of_Z.
    rewrite Z2Nat.id by assumption.
    destruct k as [[n d] Hc]. simpl in *. subst d. reflexivity.
Qed.

Lemma copyPages_loop_returns (C : PdfCodec) (src : list (PageNode C)) (indices : list number) :
  forall copied,
    PdfLib.copyPages_loop C src indices = inr copied ->
    Forall (valid_index (List.length src)) indices.
Proof.
  induction indices as [|k indices IH]; intros copied H; [constructor|].
  simpl in H. destruct (array_get src k) as [q|] eqn:Ek; [|discriminate].
  destruct (PdfLib.copyPages_loop C src indices) as [e|copied'] eqn:E; [discriminate|].
  constructor; [exact (array_get_Some_valid src k q Ek)|exact (IH copied' eq_refl)].
Qed.

End ExtractPagesMore.

(** [extractPages] returns exactly when the source bytes parse and every
    index is an integer from 0 to the page count minus 1, repeated or
    not: an unreadable source, or one negative, fractional or too large
    index, makes it throw. *)
Theorem extractPages_returns_iff (C : PdfCodec) (bytes : Uint8Array)
  (pageIndices : list number) :
  (exists out, extractPages C bytes pageIndices = inr out) <->
  (exists src,
     pdf_parse C bytes = inr src /\
     Forall (valid_index (List.length src)) pageIndices).
Proof.
  split.
  - intros (out & H). unfold extractPages, PdfLib.load, PdfLib.copyPages in H.
    destruct (pdf_parse C bytes) as [e|src]; [discriminate|]. simpl in H.
    exists src. split; [reflexivity|].
    destruct (PdfLib.copyPages_loop C src pageIndices) as [e|copied] eqn:E; [discriminate|].
    exact (ExtractPagesMore.copyPages_loop_returns C src pageIndices copied E).
  - intros (src & Hsrc & Hidx).
    destruct (ExtractPagesFacts.extractPages_valid C bytes src pageIndices Hsrc Hidx)
      as (copied & doc & E & _). eauto.
Qed.

(** The theorem on a fractional index: 1.5 is no valid index, and the
    extraction throws. *)
Lemma extractPages_returns_iff_witness :
  ~ valid_index 5 (Q2Qc 1.5) /\
  ~ (exists out,
       extractPages Sample.sample_codec Sample.five_pages [num_of_nat 0; Q2Qc 1.5] = inr out).
Proof.
  assert (Hfrac : ~ valid_index 5 (Q2Qc 1.5)).
  { intros (i & _ & E). apply (f_equal (fun q : Qc => Qden q)) in E.
    unfold num_of_nat in E. rewrite JsFacts.this_num_of_Z in E. discriminate E. }
  split; [exact Hfrac|].
  intros H.
  apply (proj1 (extractPages_returns_iff Sample.sample_codec Sample.five_pages
                  [num_of_nat 0; Q2Qc 1.5])) in H.
  destruct H as (src & Hsrc & Hidx). injection Hsrc as <-.
  inversion Hidx as [|? ? _ Htl]; subst. inversion Htl as [|? ? H15 _]; subst.
  exact (Hfrac H15).
Defined.


(* ================================================================== *)
(** ** The handlers, case by case *)
(* ================================================================== *)

Module HandlerFacts.

Import JsFacts NumSet.

(** *** The selection holds no index twice *)

Lemma add_NoDup (s : t) (x : number) : NoDup s -> NoDup (add s x).
Proof.
  intros H. unfold add. destruct (has s x) eqn:E; [assumption|].
  apply NoDup_app; [assumption|repeat constructor; intros []|].
  intros y Hy [<-|[]]. apply has_In in Hy. congruence.
Qed.

Lemma delete_NoDup (s : t) (x : number) : NoDup s -> NoDup (delete s x).
Proof. intros H. unfold delete. now apply NoDup_filter. Qed.

Lemma fold_add_NoDup (l : list number) : forall s, NoDup s -> NoDup (fold_left add l s).
Proof.
  induction l as [|x l IH]; intros s H; simpl; [assumption|].
  apply IH. now apply add_NoDup.
Qed.

Lemma of_iterable_is_set (l : list number) : NoDup (of_iterable l).
Proof. apply fold_add_NoDup. constructor. Qed.

Lemma toggle_NoDup (st : App.State) (i : number) :
  NoDup (App.selectedIndices (App.togglePageSelection i st)).
Proof.
  unfold App.togglePageSelection. simpl.
  destruct (has _ i); [apply delete_NoDup|apply add_NoDup]; apply of_iterable_is_set.
Qed.

(** Deleting a member of a set takes exactly one element out. *)
Lemma delete_length (s : t) (x : number) :
  NoDup s -> In x s -> S (List.length (delete s x)) = List.length s.
Proof.
  unfold delete. induction s as [|y s IH]; intros Hnd Hin; [contradiction|].
  inversion Hnd as [|? ? Hy Hs]; subst. simpl.
  destruct (num_eqb x y) eqn:E; simpl.
  - apply num_eqb_eq in E. subst y. f_equal.
    rewrite ParsePDFFacts.filter_all; [reflexivity|].
    intros z Hz. apply negb_true_iff, num_eqb_neq. intros ->. contradiction.
  - f_equal. apply IH; [assumption|].
    destruct Hin as [->|Hin]; [|assumption].
    rewrite num_eqb_refl in E. discriminate.
Qed.

(** *** [trim] *)

Lemma trimStart_blank (s : string) : all_white_space s = true -> trimStart s = EmptyString.
Proof.
  induction s as [|c s IH]; simpl; [reflexivity|].
  destruct (is_white_space c); simpl; [exact IH|discriminate].
Qed.

Lemma trimStart_not_blank (s : string) :
  all_white_space s = false ->
  exists c s', trimStart s = String c s' /\ is_white_space c = false.
Proof.
  induction s as [|c s IH]; simpl; [discriminate|].
  destruct (is_white_space c) eqn:E; simpl; [exact IH|eauto].
Qed.

Lemma trimEnd_keeps (c : ascii) (s : string) :
  is_white_space c = false -> str_falsy (trimEnd (String c s)) = false.
Proof.
  intros E. simpl. destruct (trimEnd s); [now rewrite E|reflexivity].
Qed.

(** [!s.trim()] holds exactly for the strings of white space only. *)
Lemma trim_falsy (s : string) : str_falsy (trim s) = all_white_space s.
Proof.
  unfold trim. destruct (all_white_space s) eqn:E.
  - now rewrite trimStart_blank.
  - destruct (trimStart_not_blank s E) as (c & s' & -> & Hc). now apply trimEnd_keeps.
Qed.

(** *** Exports *)

(** Without a document, or with nothing selected, an export is not
    even started. *)
Lemma handleDownload_inert (E : Env) (st : App.State) :
  App.pdfData st = None \/ App.selectedIndices st = [] ->
  App.handleDownload E st = (st, None).
Proof.
  unfold App.handleDownload. intros [H|H].
  - now rewrite H.
  - destruct (App.pdfData st); [|reflexivity]. now rewrite H.
Qed.

End HandlerFacts.

(** The outcome of a file selection.  When the document opens and no
    page fails, the new document is installed, the page grid is shown,
    the selection and the error message are cleared, and the text of
    the query is kept.  Otherwise the error message is set and the drop
    zone is shown again, while the document loaded before, if any, and
    the selection stay in the state as they were. *)
Theorem handleFileSelect_outcome (E : Env) (file : File) (st : App.State) :
  ((exists pdf,
      getDocument (pdfjs E) (arrayBuffer file) = inr pdf /\
      forall i, (1 <= i <= numPages (pdfjs E) pdf)%nat -> ~ page_fails (pdfjs E) pdf i) ->
   exists data,
     parsePDF (pdfjs E) file = inr data /\
     App.handleFileSelect E file st =
       {| App.status := READY;
          App.pdfData := Some data;
          App.selectedIndices := NumSet.empty;
          App.aiQuery := App.aiQuery st;
          App.isAiLoading := App.isAiLoading st;
          App.error := None |}) /\
  (~ (exists pdf,
        getDocument (pdfjs E) (arrayBuffer file) = inr pdf /\
        forall i, (1 <= i <= numPages (pdfjs E) pdf)%nat -> ~ page_fails (pdfjs E) pdf i) ->
   App.handleFileSelect E file st =
     {| App.status := IDLE;
        App.pdfData := App.pdfData st;
        App.selectedIndices := App.selectedIndices st;
        App.aiQuery := App.aiQuery st;
        App.isAiLoading := App.isAiLoading st;
        App.error := Some "Failed to process PDF. Please try another file." |}).
Proof.
  split.
  - intros (pdf & Hdoc & Hall).
    destruct (ParsePDFMore.parsePDF_loop_returns (pdfjs E) pdf (numPages (pdfjs E) pdf) 1 [])
      as (recs & Hloop & _); [intros j Hj; apply Hall; lia|].
    assert (Hp : parsePDF (pdfjs E) file =
                 inr {| name := file_name file; size := file_size file;
                        pages := recs; rawBytes := transferred (arrayBuffer file) |}).
    { unfold parsePDF. rewrite Hdoc. simpl. rewrite Hloop. reflexivity. }
    eexists. split; [exact Hp|].
    unfold App.handleFileSelect. rewrite Hp. reflexivity.
  - intros Hno.
    destruct (parsePDF (pdfjs E) file) as [e|data] eqn:Hp.
    + unfold App.handleFileSelect. rewrite Hp. reflexivity.
    + exfalso. apply Hno.
      exact (ParsePDFMore.parsePDF_no_page_fails (pdfjs E) file data Hp).
Qed.

(** The theorem on a document whose second page has unreadable text,
    selected while a document of one page is loaded with its page
    selected. *)
Lemma handleFileSelect_outcome_witness :
  ~ (exists pdf,
       getDocument (pdfjs Sample.fragile_env)
         (arrayBuffer (Sample.file_of Sample.damaged_pages)) = inr pdf /\
       forall i, (1 <= i <= numPages (pdfjs Sample.fragile_env) pdf)%nat ->
                 ~ page_fails (pdfjs Sample.fragile_env) pdf i) /\
  App.handleFileSelect Sample.fragile_env (Sample.file_of Sample.damaged_pages)
    (Sample.loaded Sample.one_page [Sample.page_record 0] [num_of_nat 0])
  = {| App.status := IDLE;
       App.pdfData := App.pdfData
                        (Sample.loaded Sample.one_page [Sample.page_record 0] [num_of_nat 0]);
       App.selectedIndices := [num_of_nat 0];
       App.aiQuery := "invoices";
       App.isAiLoading := false;
       App.error := Some "Failed to process PDF. Please try another file." |}.
Proof.
  assert (Hno : ~ (exists pdf,
                     getDocument (pdfjs Sample.fragile_env)
                       (arrayBuffer (Sample.file_of Sample.damaged_pages)) = inr pdf /\
                     forall i, (1 <= i <= numPages (pdfjs Sample.fragile_env) pdf)%nat ->
                               ~ page_fails (pdfjs Sample.fragile_env) pdf i)).
  { intros (pdf & Hdoc & Hall). injection Hdoc as <-.
    apply (Hall 2%nat); [simpl; lia|exact I]. }
  split; [exact Hno|].
  exact (proj2 (handleFileSelect_outcome Sample.fragile_env
                  (Sample.file_of Sample.damaged_pages)
                  (Sample.loaded Sample.one_page [Sample.page_record 0] [num_of_nat 0]))
           Hno).
Defined.



(** Without a loaded document the select-all control, the search and
    the export leave the state as it is; so does the export when
    nothing is selected, and it then downloads nothing. *)
Theorem controls_inert (E : Env) (st : App.State) :
  (App.pdfData st = None ->
   App.handleSelectAll st = st /\
   App.handleAiSearch E st = st /\
   App.handleDownload E st = (st, None)) /\
  (App.selectedIndices st = [] -> App.handleDownload E st = (st, None)).
Proof.
  split.
  - intros H. split; [|split].
    + unfold App.handleSelectAll. now rewrite H.
    + unfold App.handleAiSearch. now rewrite H.
    + apply HandlerFacts.handleDownload_inert. now left.
  - intros H. apply HandlerFacts.handleDownload_inert. now right.
Qed.

(** The theorem on the initial state. *)
Lemma controls_inert_witness :
  App.pdfData App.initial = None /\
  App.selectedIndices App.initial = [] /\
  App.handleSelectAll App.initial = App.initial /\
  App.handleAiSearch (Sample.sample_env (Some "[0]")) App.initial = App.initial /\
  App.handleDownload (Sample.sample_env (Some "[0]")) App.initial = (App.initial, None).
Proof.
  split; [reflexivity|]. split; [reflexivity|].
  destruct (controls_inert (Sample.sample_env (Some "[0]")) App.initial) as [Hnone Hempty].
  destruct (Hnone eq_refl) as (Hall & Hsearch & _).
  split; [exact Hall|]. split; [exact Hsearch|exact (Hempty eq_refl)].
Defined.

(** A search is not started when the query is empty or made of white
    space only, nor while another search is under way: the state stays
    as it is. *)
Theorem handleAiSearch_not_started (E : Env) (st : App.State) :
  all_white_space (App.aiQuery st) = true \/ App.isAiLoading st = true ->
  App.handleAiSearch E st = st.
Proof.
  intros H. unfold App.handleAiSearch.
  destruct (App.pdfData st); [|reflexivity].
  rewrite HandlerFacts.trim_falsy.
  destruct H as [-> | ->]; [reflexivity|now rewrite orb_true_r].
Qed.

(** The theorem on a query of a space, a tab and a line feed. *)
Lemma handleAiSearch_not_started_witness :
  all_white_space (String " " (String (ascii_of_nat 9) newline)) = true /\
  App.handleAiSearch (Sample.sample_env (Some "[0]"))
    (App.setAiQuery (String " " (String (ascii_of_nat 9) newline))
       (Sample.loaded Sample.five_pages (map Sample.page_record (seq 0 5)) [num_of_nat 2]))
  = App.setAiQuery (String " " (String (ascii_of_nat 9) newline))
      (Sample.loaded Sample.five_pages (map Sample.page_record (seq 0 5)) [num_of_nat 2]).
Proof.
  split; [reflexivity|].
  apply (handleAiSearch_not_started (Sample.sample_env (Some "[0]"))).
  left. reflexivity.
Defined.

(** When the service rejects the request, so does
    [suggestPagesByQuery], and the search ends with its error message
    set and the selection as it was. *)
Theorem handleAiSearch_rejected (E : Env) (st : App.State) (d : PDFData) (e : exn) :
  App.pdfData st = Some d ->
  all_white_space (App.aiQuery st) = false ->
  App.isAiLoading st = false ->
  generateContent (genai E) (request (genai E) (App.aiQuery st) (pages d)) = inl e ->
  suggestPagesByQuery (genai E) (App.aiQuery st) (pages d) = inl e /\
  App.handleAiSearch E st =
    {| App.status := App.status st;
       App.pdfData := App.pdfData st;
       App.selectedIndices := App.selectedIndices st;
       App.aiQuery := App.aiQuery st;
       App.isAiLoading := false;
       App.error := Some "AI Search failed. Please try again." |}.
Proof.
  intros Hd Hq Hl Hg.
  pose proof (SuggestFacts.suggest_rejected (genai E) (App.aiQuery st) (pages d) e Hg) as Hs.
  split; [exact Hs|].
  destruct st as [stat pd sel q ld err]. simpl in *. subst pd ld.
  unfold App.handleAiSearch. simpl.
  rewrite HandlerFacts.trim_falsy, Hq. simpl. rewrite Hs. reflexivity.
Qed.

(** The theorem on a service that is unavailable. *)
Lemma handleAiSearch_rejected_witness :
  all_white_space "invoices" = false /\
  App.handleAiSearch Sample.failing_env
    (Sample.loaded Sample.five_pages (map Sample.page_record (seq 0 5)) [num_of_nat 2])
  = {| App.status := READY;
       App.pdfData := App.pdfData
                        (Sample.loaded Sample.five_pages (map Sample.page_record (seq 0 5))
                           [num_of_nat 2]);
       App.selectedIndices := [num_of_nat 2];
       App.aiQuery := "invoices";
       App.isAiLoading := false;
       App.error := Some "AI Search failed. Please try again." |}.
Proof.
  split; [reflexivity|].
  apply (handleAiSearch_rejected Sample.failing_env
           (Sample.loaded Sample.five_pages (map Sample.page_record (seq 0 5)) [num_of_nat 2])
           {| name := "sample.pdf"; size := num_of_nat 6;
              pages := map Sample.page_record (seq 0 5);
              rawBytes := Sample.five_pages |}
           (LibraryError "503 Service Unavailable") eq_refl eq_refl eq_refl eq_refl).
Defined.

(** When the service answers with a body from which no array can be
    read, the search empties the selection, whatever was selected, and
    sets no error message. *)
Theorem handleAiSearch_no_array_clears (E : Env) (st : App.State) (d : PDFData)
  (response : GenerateContentResponse) :
  App.pdfData st = Some d ->
  all_white_space (App.aiQuery st) = false ->
  App.isAiLoading st = false ->
  generateContent (genai E) (request (genai E) (App.aiQuery st) (pages d)) = inr response ->
  no_array (text response) ->
  App.handleAiSearch E st =
    {| App.status := App.status st;
       App.pdfData := App.pdfData st;
       App.selectedIndices := NumSet.empty;
       App.aiQuery := App.aiQuery st;
       App.isAiLoading := false;
       App.error := App.error st |}.
Proof.
  intros Hd Hq Hl Hg Hbody.
  assert (Hs : suggestPagesByQuery (genai E) (App.aiQuery st) (pages d) = inr []).
  { unfold suggestPagesByQuery. rewrite Hg. simpl.
    destruct (text response) as [t|]; [|reflexivity].
    destruct (str_falsy t); [reflexivity|].
    simpl in Hbody. destruct (JSON.parse t) as [e|parsed]; [reflexivity|].
    simpl. destruct parsed; try reflexivity. discriminate Hbody. }
  rewrite <- HandlerFacts.trim_falsy in Hq.
  exact (SearchFacts.handleAiSearch_suggested E st d [] Hd Hq Hl Hs).
Qed.

(** The theorem on a body that is no JSON, with two pages selected. *)
Lemma handleAiSearch_no_array_clears_witness :
  no_array (Some "pages 1 and 2") /\
  App.handleAiSearch (Sample.sample_env (Some "pages 1 and 2"))
    (Sample.loaded Sample.five_pages (map Sample.page_record (seq 0 5))
       (map num_of_nat [3; 1]%nat))
  = {| App.status := READY;
       App.pdfData := App.pdfData
                        (Sample.loaded Sample.five_pages (map Sample.page_record (seq 0 5))
                           (map num_of_nat [3; 1]%nat));
       App.selectedIndices := NumSet.empty;
       App.aiQuery := "invoices";
       App.isAiLoading := false;
       App.error := None |}.
Proof.
  split; [vm_compute; exact I|].
  apply (handleAiSearch_no_array_clears (Sample.sample_env (Some "pages 1 and 2"))
           (Sample.loaded Sample.five_pages (map Sample.page_record (seq 0 5))
              (map num_of_nat [3; 1]%nat))
           {| name := "sample.pdf"; size := num_of_nat 6;
              pages := map Sample.page_record (seq 0 5);
              rawBytes := Sample.five_pages |}
           {| text := Some "pages 1 and 2" |} eq_refl eq_refl eq_refl eq_refl).
  vm_compute. exact I.
Defined.

(** [suggestPagesByQuery] throws exactly when the service rejects the
    request: once the service has answered, whatever the answer, a
    list is returned. *)
Theorem suggestPagesByQuery_throws_iff (G : GenAI) (query : string)
  (pages : list PDFPagePreview) :
  (exists e, suggestPagesByQuery G query pages = inl e) <->
  (exists e, generateContent G (request G query pages) = inl e).
Proof.
  split.
  - intros (e & H). unfold suggestPagesByQuery in H.
    destruct (generateContent G (request G query pages)) as [e'|response]; [eauto|].
    simpl in H. destruct (text response) as [t|]; [|discriminate].
    destruct (str_falsy t); discriminate.
  - intros (e & H). exists e. exact (SuggestFacts.suggest_rejected G query pages e H).
Qed.

(** The theorem on a service that is unavailable. *)
Lemma suggestPagesByQuery_throws_iff_witness :
  exists e, suggestPagesByQuery Sample.failing_genai "invoices" [Sample.page_record 0] = inl e.
Proof.
  apply (proj2 (suggestPagesByQuery_throws_iff Sample.failing_genai "invoices"
                  [Sample.page_record 0])).
  eexists. reflexivity.
Defined.

(** On a loaded document, the select-all control decides on the number
    of selected indices alone: when it equals the number of pages the
    selection is emptied, whichever indices it holds, and otherwise the
    selection becomes the indices of the pages. *)
Theorem handleSelectAll_members (st : App.State) (d : PDFData) (k : number) :
  App.pdfData st = Some d ->
  NumSet.has (App.selectedIndices (App.handleSelectAll st)) k
  = negb (Nat.eqb (NumSet.size (App.selectedIndices st)) (List.length (pages d)))
    && existsb (num_eqb k) (map index (pages d)).
Proof.
  intros Hd. unfold App.handleSelectAll. rewrite Hd.
  destruct (Nat.eqb _ _); simpl; [reflexivity|].
  apply JsFacts.has_of_iterable.
Qed.

(** The theorem on two pages with the indices 7 and 8 selected: page 0
    is not selected by the control, which empties the selection. *)
Lemma handleSelectAll_members_witness :
  NumSet.has
    (App.selectedIndices
       (App.handleSelectAll
          (Sample.loaded Sample.three_pages (map Sample.page_record (seq 0 2))
             (map num_of_nat [7; 8]%nat))))
    (num_of_nat 0)
  = false.
Proof.
  rewrite (handleSelectAll_members
             (Sample.loaded Sample.three_pages (map Sample.page_record (seq 0 2))
                (map num_of_nat [7; 8]%nat))
             {| name := "sample.pdf"; size := num_of_nat 4;
                pages := map Sample.page_record (seq 0 2);
                rawBytes := Sample.three_pages |}
             (num_of_nat 0) eq_refl).
  reflexivity.
Defined.

(** A click on a page changes the number of selected indices by exactly
    one: one more when the page was not selected, one less when it was. *)
Theorem toggle_size (st : App.State) (i : number) :
  NoDup (App.selectedIndices st) ->
  NumSet.size (App.selectedIndices (App.togglePageSelection i st))
  = if NumSet.has (App.selectedIndices st) i
    then Nat.pred (NumSet.size (App.selectedIndices st))
    else S (NumSet.size (App.selectedIndices st)).
Proof.
  intros Hnd. unfold App.togglePageSelection, NumSet.to_array. simpl.
  rewrite (JsFacts.of_iterable_NoDup _ Hnd).
  destruct (NumSet.has (App.selectedIndices st) i) eqn:E; unfold NumSet.size.
  - apply JsFacts.has_In in E.
    now rewrite <- (HandlerFacts.delete_length _ i Hnd E).
  - unfold NumSet.add. rewrite E, length_app. simpl. lia.
Qed.

(** The theorem on a selection of two, one of them clicked again. *)
Lemma toggle_size_witness :
  NoDup (map num_of_nat [3; 1]%nat) /\
  NumSet.size
    (App.selectedIndices
       (App.togglePageSelection (num_of_nat 3)
          (Sample.loaded Sample.five_pages (map Sample.page_record (seq 0 5))
             (map num_of_nat [3; 1]%nat))))
  = 1%nat.
Proof.
  assert (Hnd : NoDup (map num_of_nat [3; 1]%nat)).
  { apply SampleFacts.NoDup_num_of_nat. repeat constructor; simpl; intuition discriminate. }
  split; [exact Hnd|].
  rewrite (toggle_size
             (Sample.loaded Sample.five_pages (map Sample.page_record (seq 0 5))
                (map num_of_nat [3; 1]%nat))
             (num_of_nat 3) Hnd).
  reflexivity.
Defined.

(** After a valid document is loaded, one use of the select-all control
    selects the indices of its records, each once and in their order,
    and a second use empties the selection. *)
Theorem load_then_select_all (E : Env) (file : File) (st : App.State)
  (pdf : PDFDocumentProxy (pdfjs E)) :
  valid_document (pdfjs E) (arrayBuffer file) pdf ->
  exists data,
    App.pdfData (App.handleFileSelect E file st) = Some data /\
    App.selectedIndices (App.handleSelectAll (App.handleFileSelect E file st))
    = map index (pages data) /\
    App.selectedIndices
      (App.handleSelectAll (App.handleSelectAll (App.handleFileSelect E file st)))
    = NumSet.empty.
Proof.
  intros Hvalid.
  destruct (ParsePDFFacts.parsePDF_indices (pdfjs E) file pdf Hvalid) as (data & Hp & _).
  pose proof (ParsePDFFacts.parsePDF_NoDup (pdfjs E) file pdf data Hvalid Hp) as Hnd.
  exists data.
  assert (H1 : App.handleFileSelect E file st =
               {| App.status := READY;
                  App.pdfData := Some data;
                  App.selectedIndices := NumSet.empty;
                  App.aiQuery := App.aiQuery st;
                  App.isAiLoading := App.isAiLoading st;
                  App.error := None |})
    by (unfold App.handleFileSelect; rewrite Hp; reflexivity).
  rewrite H1. split; [reflexivity|].
  assert (H2 : App.handleSelectAll
                 {| App.status := READY;
                    App.pdfData := Some data;
                    App.selectedIndices := NumSet.empty;
                    App.aiQuery := App.aiQuery st;
                    App.isAiLoading := App.isAiLoading st;
                    App.error := None |} =
               {| App.status := READY;
                  App.pdfData := Some data;
                  App.selectedIndices := map index (pages data);
                  App.aiQuery := App.aiQuery st;
                  App.isAiLoading := App.isAiLoading st;
                  App.error := None |}).
  { unfold App.handleSelectAll. cbn [App.pdfData App.selectedIndices].
    destruct (Nat.eqb (NumSet.size NumSet.empty) (List.length (pages data))) eqn:En.
    - apply Nat.eqb_eq in En. symmetry in En. apply length_zero_iff_nil in En.
      rewrite En. reflexivity.
    - unfold App.setSelectedIndices. cbn.
      now rewrite (JsFacts.of_iterable_NoDup _ Hnd). }
  rewrite H2. split; [reflexivity|].
  unfold App.handleSelectAll. cbn [App.pdfData App.selectedIndices].
  unfold NumSet.size. rewrite length_map, Nat.eqb_refl. reflexivity.
Qed.

(** The theorem on five pages of which the second has no context. *)
Lemma load_then_select_all_witness :
  exists data,
    App.pdfData
      (App.handleFileSelect
         {| pdfjs := Sample.sample_pdfjs (fun i => negb (Nat.eqb i 2));
            codec := Sample.sample_codec;
            genai := Sample.sample_genai None |}
         (Sample.file_of Sample.five_pages) App.initial) = Some data /\
    App.selectedIndices
      (App.handleSelectAll
         (App.handleFileSelect
            {| pdfjs := Sample.sample_pdfjs (fun i => negb (Nat.eqb i 2));
               codec := Sample.sample_codec;
               genai := Sample.sample_genai None |}
            (Sample.file_of Sample.five_pages) App.initial))
    = map index (pages data).
Proof.
  destruct (load_then_select_all
              {| pdfjs := Sample.sample_pdfjs (fun i => negb (Nat.eqb i 2));
                 codec := Sample.sample_codec;
                 genai := Sample.sample_genai None |}
              (Sample.file_of Sample.five_pages) App.initial
              [x61; x62; x63; x64; x65])
    as (data & Hd & Hsel & _).
  - apply SampleFacts.sample_valid. reflexivity.
  - exists data. split; [exact Hd|exact Hsel].
Defined.


(* ================================================================== *)
(** ** The drop zone *)
(* ================================================================== *)

(** A drop always ends the drag highlight.  It hands the first of the
    dropped files to [onFileSelect] when the type of that file is
    [application/pdf], whatever else was dropped, and in every other
    case leaves the parent state as it is: no file that is not the
    first, or not of that type, is ever handed over. *)
Theorem drop_hands_over_pdf_only (S : Type) (onFileSelect : File -> S -> S)
  (files : option (list Dropzone.DomFile)) (active : bool) (s : S) :
  fst (Dropzone.handleDrop onFileSelect files (active, s)) = false /\
  (forall file0 others,
     files = Some (file0 :: others) ->
     Dropzone.type file0 = "application/pdf" ->
     snd (Dropzone.handleDrop onFileSelect files (active, s))
     = onFileSelect (Dropzone.file file0) s) /\
  (~ (exists file0 others,
        files = Some (file0 :: others) /\ Dropzone.type file0 = "application/pdf") ->
   snd (Dropzone.handleDrop onFileSelect files (active, s)) = s).
Proof.
  unfold Dropzone.handleDrop. cbn [fst snd].
  split; [|split].
  - destruct files as [[|file0 others]|]; try reflexivity.
    now destruct (String.eqb (Dropzone.type file0) "application/pdf").
  - intros file0 others -> Htype.
    apply String.eqb_eq in Htype. now rewrite Htype.
  - intros Hnone. destruct files as [[|file0 others]|]; try reflexivity.
    destruct (String.eqb (Dropzone.type file0) "application/pdf") eqn:Et; [|reflexivity].
    exfalso. apply Hnone. exists file0, others. apply String.eqb_eq in Et. auto.
Qed.

(** The theorem on a drop of two files, a text file first and a
    document second, on the initial state of the application: the
    highlight is cleared and nothing is loaded. *)
Lemma drop_hands_over_pdf_only_witness :
  ~ (exists file0 others,
       Some [Sample.text_file; Sample.pdf_file] = Some (file0 :: others) /\
       Dropzone.type file0 = "application/pdf") /\
  Dropzone.handleDrop (App.handleFileSelect (Sample.sample_env None))
    (Some [Sample.text_file; Sample.pdf_file]) (true, App.initial)
  = (false, App.initial).
Proof.
  assert (Hnone : ~ (exists file0 others,
                       Some [Sample.text_file; Sample.pdf_file] = Some (file0 :: others) /\
                       Dropzone.type file0 = "application/pdf")).
  { intros (file0 & others & Hfiles & Htype).
    injection Hfiles as <- _. discriminate Htype. }
  split; [exact Hnone|].
  destruct (drop_hands_over_pdf_only App.State
              (App.handleFileSelect (Sample.sample_env None))
              (Some [Sample.text_file; Sample.pdf_file]) true App.initial)
    as (Hfst & _ & Hsnd).
  rewrite (surjective_pairing
             (Dropzone.handleDrop (App.handleFileSelect (Sample.sample_env None))
                (Some [Sample.text_file; Sample.pdf_file]) (true, App.initial))).
  now rewrite Hfst, (Hsnd Hnone).
Defined.
